(** * Multichat: the aggregation pipeline

    A shallow embedding of the server's fan-out ([broadcast]), the
    normalizer ([normalize]), the adapter start-up ([initializeAdapters]),
    the Twitch adapter ([startTwitch] and its message handler) and of the
    client's display-mode switch and subscription-badge selection, with the
    properties the specification states about them. *)

From Stdlib Require Import ZArith String Ascii List Bool Lia.
From stdpp Require Import base option list gmap strings pretty.
Import ListNotations.

Local Open Scope Z_scope.
Local Open Scope string_scope.
Local Open Scope list_scope.

(** ** JavaScript values the code handles *)

(** An [Error] object.  The [catch] clauses of the source read the caught
    value as [(e as Error).message]. *)
Record JsError := mkError {
  errName : string;
  errMessage : string
}.

Definition TypeError (msg : string) : JsError := mkError "TypeError" msg.

(** The outcome of a call: it returns, or it throws. *)
Inductive completion (A : Type) : Type :=
| Normal (a : A)
| Throw (e : JsError).
Arguments Normal {A} a.
Arguments Throw {A} e.

(** The lines written with [console.log], [console.warn], [console.error]. *)
Inductive ConsoleLevel := LevelLog | LevelWarn | LevelError.

Definition Console := list (ConsoleLevel * string).

Definition console_log (line : string) (c : Console) : Console :=
  c ++ [(LevelLog, line)].
Definition console_warn (line : string) (c : Console) : Console :=
  c ++ [(LevelWarn, line)].
Definition console_error (line : string) (c : Console) : Console :=
  c ++ [(LevelError, line)].

(** [x || y] on a string that may be absent: the empty string is falsy. *)
Definition truthy (v : option string) : bool :=
  match v with
  | Some s => negb (String.eqb s "")
  | None => false
  end.

Definition or_else (v w : option string) : option string :=
  if truthy v then v else w.

(** [x || 'literal'] *)
Definition or_str (v : option string) (d : string) : string :=
  match v with
  | Some s => if String.eqb s "" then d else s
  | None => d
  end.

(** [x || null] *)
Definition orNull (v : option string) : option string :=
  if truthy v then v else None.

(** ** The canonical message *)

Inductive Platform := twitch | youtube | tiktok.

(** The number a field of [raw] can hold: [parseInt] gives [NaN] on a
    string that does not start with digits. *)
Inductive JsNum := Num (z : Z) | NaN.

(** The tags of a Twitch message as [tmi.js] types them; a field that is
    missing or [null] is [None].  [badges] keeps the key order of the
    object. *)
Record Tags := mkTags {
  tag_display_name : option string;
  tag_username : option string;
  tag_color : option string;
  tag_badges : option (list (string * string))
}.

(** The [raw] bag of a message, with the keys the code reads or writes. *)
Record Raw := mkRaw {
  raw_channel : option string;
  raw_tags : option Tags;
  raw_subscriptionMonths : option JsNum;
  raw_badges : option (list (string * string));
  raw_cheerAmount : option Z
}.

Definition emptyRaw : Raw := mkRaw None None None None None.

(** What an adapter hands to its [onMessage] callback. *)
Record AdapterEvent := mkAdapterEvent {
  ev_username : string;
  ev_message : string;
  ev_badges : option (list string);
  ev_color : option string;
  ev_raw : option Raw
}.

Record ChatMessage := mkChatMessage {
  id : string;
  ts : Z;
  platform : Platform;
  username : string;
  message : string;
  badges : list string;
  color : option string;
  raw : Raw
}.

(** A status frame. *)
Record WebSocketMessage := mkWebSocketMessage {
  wsm_type : string;
  wsm_message : option string
}.

(** What [broadcast] accepts: [ChatMessage | WebSocketMessage]. *)
Inductive Frame :=
| ChatFrame (m : ChatMessage)
| StatusFrame (m : WebSocketMessage).

(** ** The Broadcast Hub *)

Module Hub.

Definition CONNECTING : Z := 0.
Definition OPEN : Z := 1.
Definition CLOSING : Z := 2.
Definition CLOSED : Z := 3.

(** A viewer connection.  [sendFails calls data] is the error that
    [send(data)] throws after the earlier calls [calls], if it throws;
    [sendCalls] are the arguments of the calls made so far and [frames]
    the frames that went out, oldest first. *)
Record WebSocket := mkWebSocket {
  readyState : Z;
  sendFails : list string -> string -> option JsError;
  sendCalls : list string;
  frames : list string
}.

Definition send (data : string) (client : WebSocket) : WebSocket * option JsError :=
  let called := mkWebSocket (readyState client) (sendFails client)
                  (sendCalls client ++ [data]) (frames client) in
  match sendFails client (sendCalls client) data with
  | Some e => (called, Some e)
  | None =>
      (mkWebSocket (readyState client) (sendFails client)
         (sendCalls client ++ [data]) (frames client ++ [data]), None)
  end.

(** What one pass of the loop body leaves of the client it visits. *)
Definition attempt (data : string) (client : WebSocket) : WebSocket :=
  if Z.eqb (readyState client) OPEN then fst (send data client) else client.

(** [wss]: its [clients] in iteration order, with the console and the
    number of [JSON.stringify] calls made so far. *)
Record WebSocketServer := mkWss {
  clients : list WebSocket;
  console : Console;
  stringifyCalls : nat
}.

Section Broadcast.

(** [DEBUG] is read from the environment once, at start. *)
Variable DEBUG : bool.
(** [JSON.stringify], the runtime's; the frames hold plain data, on which
    it returns. *)
Variable stringify : Frame -> string.

(** The body of the [for] loop, for one client. *)
Definition deliver (data : string) (client : WebSocket) (out : Console)
  : WebSocket * Console :=
  if Z.eqb (readyState client) OPEN then
    match send data client with
    | (client', None) => (client', out)
    | (client', Some e) =>
        (client',
         if DEBUG then console_error ("WS send error: " +:+ errMessage e) out
         else out)
    end
  else (client, out).

Fixpoint forEachClient (data : string) (cs : list WebSocket) (out : Console)
  : list WebSocket * Console :=
  match cs with
  | [] => ([], out)
  | client :: rest =>
      let '(client', out1) := deliver data client out in
      let '(rest', out2) := forEachClient data rest out1 in
      (client' :: rest', out2)
  end.

Definition broadcast (msg : Frame) (s : WebSocketServer) : WebSocketServer :=
  let data := stringify msg in
  let '(cs, out) := forEachClient data (clients s) (console s) in
  mkWss cs out (S (stringifyCalls s)).

(** What happens between publishes: a connection changes state. *)
Inductive HubEvent :=
| Publish (msg : Frame)
| SetReadyState (i : nat) (rs : Z).

Definition setReadyState (rs : Z) (c : WebSocket) : WebSocket :=
  mkWebSocket rs (sendFails c) (sendCalls c) (frames c).

Definition step (s : WebSocketServer) (ev : HubEvent) : WebSocketServer :=
  match ev with
  | Publish msg => broadcast msg s
  | SetReadyState i rs =>
      mkWss (alter (setReadyState rs) i (clients s)) (console s)
        (stringifyCalls s)
  end.

Definition run (evs : list HubEvent) (s : WebSocketServer) : WebSocketServer :=
  fold_left step evs s.

(** The events the Hub received, in the order it received them. *)
Fixpoint published (evs : list HubEvent) : list Frame :=
  match evs with
  | [] => []
  | Publish msg :: rest => msg :: published rest
  | SetReadyState _ _ :: rest => published rest
  end.

(** Connection [i] is not moved out of [OPEN] by the trace. *)
Definition staysOpen (i : nat) (evs : list HubEvent) : bool :=
  forallb (fun ev =>
             match ev with
             | Publish _ => true
             | SetReadyState j rs => negb (Nat.eqb j i) || Z.eqb rs OPEN
             end) evs.

(** The line a failed send leaves on the console. *)
Definition sendErrorLine (e : JsError) : ConsoleLevel * string :=
  (LevelError, "WS send error: " +:+ errMessage e).

(** The errors of the sends of [data] to the open clients, in order. *)
Fixpoint sendErrors (data : string) (cs : list WebSocket) : list JsError :=
  match cs with
  | [] => []
  | c :: rest =>
      if Z.eqb (readyState c) OPEN then
        match sendFails c (sendCalls c) data with
        | Some e => e :: sendErrors data rest
        | None => sendErrors data rest
        end
      else sendErrors data rest
  end.

End Broadcast.

End Hub.

(** ** Strings: the [String.prototype] methods the code calls

    Strings are byte strings; case mapping and white space are those of
    ASCII. *)

Definition lowerChar (c : ascii) : ascii :=
  let n := nat_of_ascii c in
  if (Nat.leb 65 n && Nat.leb n 90)%bool then ascii_of_nat (n + 32) else c.

Fixpoint toLowerCase (s : string) : string :=
  match s with
  | EmptyString => EmptyString
  | String c rest => String (lowerChar c) (toLowerCase rest)
  end.

(** [s.startsWith(p)] *)
Definition startsWith (p s : string) : bool := String.prefix p s.

(** [s.slice(1)] *)
Definition slice1 (s : string) : string :=
  match s with
  | EmptyString => EmptyString
  | String _ rest => rest
  end.

Definition isSpace (c : ascii) : bool :=
  let n := nat_of_ascii c in
  (Nat.eqb n 32 || (Nat.leb 9 n && Nat.leb n 13))%bool.

Fixpoint trimStart (s : string) : string :=
  match s with
  | EmptyString => EmptyString
  | String c rest => if isSpace c then trimStart rest else s
  end.

(** A character is dropped when it is white space and nothing but white
    space follows it. *)
Fixpoint trimEnd (s : string) : string :=
  match s with
  | EmptyString => EmptyString
  | String c rest =>
      match trimEnd rest with
      | EmptyString => if isSpace c then EmptyString else String c EmptyString
      | rest' => String c rest'
      end
  end.

Definition trim (s : string) : string := trimEnd (trimStart s).

(** [s.split(sep)] for a one-character separator. *)
Fixpoint split (sep : ascii) (s : string) : list string :=
  match s with
  | EmptyString => [EmptyString]
  | String c rest =>
      if Ascii.eqb c sep then EmptyString :: split sep rest
      else match split sep rest with
           | [] => [String c EmptyString]
           | w :: ws => String c w :: ws
           end
  end.

(** [s.replace(/\/+$/, '')]: the slashes at the end are removed. *)
Fixpoint stripTrailingSlashes (s : string) : string :=
  match s with
  | EmptyString => EmptyString
  | String c rest =>
      match stripTrailingSlashes rest with
      | EmptyString => if Ascii.eqb c "/" then EmptyString else String c EmptyString
      | rest' => String c rest'
      end
  end.

(** [parseInt(s, 10)]: leading white space, an optional sign, then the
    longest run of decimal digits; [NaN] when there is no digit. *)
Definition digitOf (c : ascii) : option Z :=
  let n := nat_of_ascii c in
  if (Nat.leb 48 n && Nat.leb n 57)%bool then Some (Z.of_nat (n - 48)) else None.

Fixpoint digits (s : string) (acc : option Z) : option Z :=
  match s with
  | EmptyString => acc
  | String c rest =>
      match digitOf c with
      | Some d => digits rest (Some (10 * default 0 acc + d))
      | None => acc
      end
  end.

Definition parseInt (s : string) : JsNum :=
  match trimStart s with
  | String "-" rest =>
      match digits rest None with Some n => Num (- n) | None => NaN end
  | String "+" rest =>
      match digits rest None with Some n => Num n | None => NaN end
  | rest =>
      match digits rest None with Some n => Num n | None => NaN end
  end.

(** [obj[key]] on an object kept as its list of entries. *)
Fixpoint prop (key : string) (obj : list (string * string)) : option string :=
  match obj with
  | [] => None
  | (k, v) :: rest => if String.eqb k key then Some v else prop key rest
  end.

(** [Object.keys(obj)] *)
Definition keys (obj : list (string * string)) : list string := map fst obj.

(** ** Code that throws and catches: state and an outcome *)

Definition M (St A : Type) : Type := St -> St * completion A.

#[global] Instance M_ret {St} : MRet (M St) :=
  fun A (a : A) st => (st, Normal a).

#[global] Instance M_bind {St} : MBind (M St) :=
  fun A B (k : A -> M St B) (c : M St A) st =>
    match c st with
    | (st', Normal a) => k a st'
    | (st', Throw e) => (st', Throw e)
    end.

Definition throw {St A} (e : JsError) : M St A := fun st => (st, Throw e).

(** [try { body } catch (error) { handler }]; what the body did to the
    state before it threw stays done. *)
Definition try_catch {St A} (body : M St A) (handler : JsError -> M St A) : M St A :=
  fun st =>
    match body st with
    | (st', Normal a) => (st', Normal a)
    | (st', Throw e) => handler e st'
    end.

(** ** The Normalizer *)

Module Normalizer.

(** The runtime [normalize] reads: how many ids [uuidv4] has handed out,
    and what [Date.now()] shows. *)
Record Runtime := mkRuntime {
  draws : nat;
  now : Z
}.

Section Normalize.

(** [uuidv4 k] is the id the generator returns on its [k]-th call. *)
Variable uuidv4 : nat -> string.

(** The argument is [{ platform, ...evt }]; an [AdapterEvent] has no
    [platform] of its own. *)
Definition normalize (platform : Platform) (evt : AdapterEvent) (rt : Runtime)
  : ChatMessage * Runtime :=
  let badges := default [] (ev_badges evt) in
  let raw := default emptyRaw (ev_raw evt) in
  (mkChatMessage (uuidv4 (draws rt)) (now rt) platform
     (ev_username evt) (ev_message evt) badges (orNull (ev_color evt)) raw,
   mkRuntime (S (draws rt)) (now rt)).

(** A session: the calls in order, each with the time the clock shows
    when it is made. *)
Fixpoint session (calls : list (Z * Platform * AdapterEvent)) (rt : Runtime)
  : list ChatMessage :=
  match calls with
  | [] => []
  | (t, p, evt) :: rest =>
      let '(m, rt') := normalize p evt (mkRuntime (draws rt) t) in
      m :: session rest rt'
  end.

End Normalize.

End Normalizer.

(** ** The Twitch adapter *)

(** The functions the adapters return and the server keeps in [stopFns]. *)
Inductive StopFunction :=
| StopTwitch
| StopTikTok
| StopYouTube
| ClearInterval.

Module Twitch.

(** The arguments [tmi.js] passes to the ['message'] listener.
    [msg_tags] is [None] for an event without a tags object. *)
Record RawMessage := mkRawMessage {
  msg_channel : string;
  msg_tags : option Tags;
  msg_text : string;
  msg_self : bool
}.

(** The process as the listener sees it: the state the callback works
    on, the console, and the arguments of the [onMessage] calls made. *)
Record Process (App : Type) := mkProcess {
  app : App;
  out : Console;
  onMessageCalls : list AdapterEvent
}.
Arguments mkProcess {App} _ _ _.
Arguments app {App} _.
Arguments out {App} _.
Arguments onMessageCalls {App} _.

Section Listener.

Variable App : Type.
Variable debug : bool.
(** The callback of the configuration; it may throw. *)
Variable onMessage : AdapterEvent -> App -> App * option JsError.

Definition callOnMessage (evt : AdapterEvent) : M (Process App) unit :=
  fun st =>
    let '(app', thrown) := onMessage evt (app st) in
    (mkProcess app' (out st) (onMessageCalls st ++ [evt]),
     match thrown with
     | None => Normal tt
     | Some e => Throw e
     end).

Definition consoleError (line : string) : M (Process App) unit :=
  fun st =>
    (mkProcess (app st) (console_error line (out st)) (onMessageCalls st),
     Normal tt).

(** [tags.badges] on a missing [tags] throws. *)
Definition readTags (tags : option Tags) : M (Process App) Tags :=
  match tags with
  | Some t => mret t
  | None =>
      throw (TypeError "Cannot read properties of undefined (reading 'badges')")
  end.

Definition subscriptionMonthsOf (t : Tags) : option JsNum :=
  match tag_badges t with
  | Some bs =>
      match prop "subscriber" bs with
      | Some v => if truthy (Some v) then Some (parseInt v) else None
      | None => None
      end
  | None => None
  end.

(** The object handed to [onMessage]. *)
Definition adapterEvent (channel : string) (t : Tags) (message : string)
  : AdapterEvent :=
  mkAdapterEvent
    (or_str (or_else (tag_display_name t) (tag_username t)) "unknown")
    message
    (Some (keys (default [] (tag_badges t))))
    (orNull (tag_color t))
    (Some (mkRaw (Some channel) (Some t) (subscriptionMonthsOf t) None None)).

(** The ['message'] listener. *)
Definition onMessageListener (m : RawMessage) : M (Process App) unit :=
  if msg_self m then mret tt
  else
    try_catch
      (t ← readTags (msg_tags m);
       callOnMessage (adapterEvent (msg_channel m) t (msg_text m)))
      (fun error =>
         if debug
         then consoleError ("[twitch] message processing error: " +:+ errMessage error)
         else mret tt).

(** The emitter calls the listener once per event, in order; a throw
    that leaves the listener ends the stream. *)
Fixpoint emitAll (ms : list RawMessage) : M (Process App) unit :=
  match ms with
  | [] => mret tt
  | m :: rest => onMessageListener m;; emitAll rest
  end.

(** The event a raw message is delivered as, when it is delivered. *)
Definition delivered (m : RawMessage) : option AdapterEvent :=
  if msg_self m then None
  else match msg_tags m with
       | Some t => Some (adapterEvent (msg_channel m) t (msg_text m))
       | None => None
       end.

End Listener.

(** A [tmi.Client]: its options, its channels and the events it has a
    listener for. *)
Record TmiClient := mkTmiClient {
  tmi_debug : bool;
  tmi_channels : list string;
  tmi_listeners : list string;
  tmi_connected : bool
}.

Record World := mkWorld {
  tmiClients : list TmiClient;
  console : Console
}.

(** The configuration object as [startTwitch] receives it; a key the
    caller did not set is [None]. *)
Record TwitchAdapterConfig := mkConfig {
  cfg_channel : option string;
  cfg_channels : option (list string);
  cfg_username : option string;
  cfg_oauth : option string;
  cfg_debug : option bool
}.

Section Start.

(** [connect channels] is what [client.connect()] does: the lines the
    library's own logger writes to the console, and the error the call
    rejects with, if it does. *)
Variable connect : list string -> Console * option JsError.

Definition newClient (debug : bool) (channels : list string) : M World unit :=
  fun w =>
    (mkWorld (tmiClients w ++ [mkTmiClient debug channels [] false]) (console w),
     Normal tt).

Definition addListener (event : string) (c : TmiClient) : TmiClient :=
  mkTmiClient (tmi_debug c) (tmi_channels c) (tmi_listeners c ++ [event])
    (tmi_connected c).

Definition setConnected (c : TmiClient) : TmiClient :=
  mkTmiClient (tmi_debug c) (tmi_channels c) (tmi_listeners c) true.

(** The client made last is the one the function holds. *)
Definition onLast (f : TmiClient -> TmiClient) (cs : list TmiClient)
  : list TmiClient :=
  alter f (Nat.pred (length cs)) cs.

Definition on (event : string) : M World unit :=
  fun w => (mkWorld (onLast (addListener event) (tmiClients w)) (console w),
            Normal tt).

Definition clientConnect (channels : list string) : M World unit :=
  fun w =>
    match snd (connect channels) with
    | Some e =>
        (mkWorld (tmiClients w) (console w ++ fst (connect channels)), Throw e)
    | None =>
        (mkWorld (onLast setConnected (tmiClients w))
           (console w ++ fst (connect channels)),
         Normal tt)
    end.

Definition log (line : string) : M World unit :=
  fun w => (mkWorld (tmiClients w) (console_log line (console w)), Normal tt).

Definition startTwitch (cfg : TwitchAdapterConfig) : M World StopFunction :=
  let debug := default false (cfg_debug cfg) in
  channel ← match cfg_channel cfg with
            | Some c => mret c
            | None =>
                throw (TypeError
                  "Cannot read properties of undefined (reading 'startsWith')")
            end;
  let normalizedChannel :=
    if startsWith "#" channel then slice1 channel else channel in
  newClient debug [normalizedChannel];;
  on "message";;
  on "connected";;
  on "disconnected";;
  clientConnect [normalizedChannel];;
  (if debug
   then log ("[twitch] connected to channel: #" +:+ normalizedChannel)
   else mret tt);;
  mret StopTwitch.

End Start.

End Twitch.

(** ** The server: its [onMessage] callback and the start of the adapters *)

Module Server.

(** What starting the adapters works on: the [tmi.js] clients and the
    console, the [stopFns] array, the platforms whose start function has
    been called (in call order) and the timers set. *)
Record Boot := mkBoot {
  world : Twitch.World;
  stopFns : list StopFunction;
  startCalls : list Platform;
  intervals : nat
}.

Section Index.

(** [process.env] *)
Variable env : gmap string string.
Variable uuidv4 : nat -> string.
Variable stringify : Frame -> string.
Variable connect : list string -> Console * option JsError.
(** The two adapters of [adapters/tiktok] and [adapters/youtube]: the
    outcome of the call, from the configuration they are given. *)
Variable startTikTok : string -> bool -> completion StopFunction.
Variable startYouTube : string -> bool -> bool -> completion StopFunction.

Definition DEBUG : bool :=
  String.eqb (toLowerCase (or_str (env !! "DEBUG") "false")) "true".

(** [normalize({ platform, ...evt })] then [broadcast(normalized)]. *)
Definition onMessage (p : Platform) (evt : AdapterEvent)
    (st : Normalizer.Runtime * Hub.WebSocketServer)
  : (Normalizer.Runtime * Hub.WebSocketServer) * option JsError :=
  let '(normalized, rt) := Normalizer.normalize uuidv4 p evt (fst st) in
  ((rt, Hub.broadcast DEBUG stringify (ChatFrame normalized) (snd st)), None).

Definition liftWorld {A} (c : M Twitch.World A) : M Boot A :=
  fun b =>
    let '(w, r) := c (world b) in
    (mkBoot w (stopFns b) (startCalls b) (intervals b), r).

Definition consoleLog (line : string) : M Boot unit :=
  liftWorld (fun w =>
    (Twitch.mkWorld (Twitch.tmiClients w) (console_log line (Twitch.console w)),
     Normal tt)).

Definition consoleWarn (line : string) : M Boot unit :=
  liftWorld (fun w =>
    (Twitch.mkWorld (Twitch.tmiClients w) (console_warn line (Twitch.console w)),
     Normal tt)).

Definition consoleError (line : string) : M Boot unit :=
  liftWorld (fun w =>
    (Twitch.mkWorld (Twitch.tmiClients w) (console_error line (Twitch.console w)),
     Normal tt)).

(** The start function of [p] is entered. *)
Definition entered (p : Platform) : M Boot unit :=
  fun b => (mkBoot (world b) (stopFns b) (startCalls b ++ [p]) (intervals b),
            Normal tt).

Definition push (stop : StopFunction) : M Boot unit :=
  fun b => (mkBoot (world b) (stopFns b ++ [stop]) (startCalls b) (intervals b),
            Normal tt).

Definition setInterval : M Boot unit :=
  fun b => (mkBoot (world b) (stopFns b) (startCalls b) (S (intervals b)),
            Normal tt).

Definition outcome (r : completion StopFunction) : M Boot StopFunction :=
  fun b => (b, r).

(** The object literal passed to [startTwitch]: it has [username],
    [oauth], [channels], [onMessage] and [debug], and no [channel]. *)
Definition twitchConfig : Twitch.TwitchAdapterConfig :=
  Twitch.mkConfig
    None
    (Some (List.filter (fun s => negb (String.eqb s ""))
             (map trim (split "," (default "" (env !! "TWITCH_CHANNELS"))))))
    (env !! "TWITCH_USERNAME")
    (env !! "TWITCH_OAUTH")
    (Some DEBUG).

Definition initTwitch : M Boot unit :=
  if (truthy (env !! "TWITCH_USERNAME") && truthy (env !! "TWITCH_OAUTH")
      && truthy (env !! "TWITCH_CHANNELS"))%bool
  then
    try_catch
      (entered twitch;;
       stopTwitch ← liftWorld (Twitch.startTwitch connect twitchConfig);
       push stopTwitch)
      (fun error => consoleError ("[twitch] Failed to start: " +:+ errMessage error))
  else if DEBUG then consoleLog "[twitch] skipped (missing env)" else mret tt.

Definition initTikTok : M Boot unit :=
  if truthy (env !! "TIKTOK_USERNAME")
  then
    try_catch
      (entered tiktok;;
       stopTikTok ← outcome (startTikTok (default "" (env !! "TIKTOK_USERNAME")) DEBUG);
       push stopTikTok)
      (fun error => consoleError ("[tiktok] Failed to start: " +:+ errMessage error))
  else if DEBUG then consoleLog "[tiktok] skipped (missing env)" else mret tt.

Definition initYouTube : M Boot unit :=
  if truthy (env !! "YT_CHANNEL_ID")
  then
    consoleLog ("[youtube] starting with channel id: "
                +:+ default "" (env !! "YT_CHANNEL_ID"));;
    try_catch
      (entered youtube;;
       stopYouTube ←
         outcome (startYouTube (default "" (env !! "YT_CHANNEL_ID"))
                    (String.eqb
                       (toLowerCase (or_str (env !! "YT_RETRY_WHEN_OFFLINE") "true"))
                       "true")
                    DEBUG);
       push stopYouTube)
      (fun error => consoleError ("[youtube] Failed to start: " +:+ errMessage error))
  else
    consoleWarn
      "[youtube] skipped: set YT_CHANNEL_ID in your environment to enable YouTube".

Definition initFakeMessages : M Boot unit :=
  match env !! "FAKE_MESSAGES" with
  | Some v =>
      if String.eqb v "true" then setInterval;; push ClearInterval else mret tt
  | None => mret tt
  end.

Definition initializeAdapters : M Boot unit :=
  initTwitch;; initTikTok;; initYouTube;; initFakeMessages.

End Index.

End Server.

(** ** The client *)

Module Client.

(** [window.location]: the query string as [URLSearchParams] holds it
    (the decoded pairs, in order) and the path. *)
Record Location := mkLocation {
  search : list (string * string);
  pathname : string
}.

(** [params.get(name)]: the first value of the name, or [null]. *)
Definition get (name : string) (params : list (string * string)) : option string :=
  prop name params.

Definition isPrivateParam (loc : Location) : bool :=
  match get "private" (search loc) with
  | Some privateParam =>
      existsb (String.eqb (toLowerCase privateParam)) ["1"; "true"; "yes"]
  | None => false
  end.

Definition isPrivatePath (loc : Location) : bool :=
  String.eqb (stripTrailingSlashes (pathname loc)) "/private".

Definition isPublicMode (loc : Location) : bool :=
  let modeParam := get "mode" (search loc) in
  let isPublicMode :=
    match modeParam with
    | Some v => String.eqb v "public"
    | None => false
    end in
  (isPublicMode || negb (isPrivateParam loc || isPrivatePath loc))%bool.

(** [useChatMessages({ autoExpire: isPublicMode })] *)
Definition autoExpire (loc : Location) : bool := isPublicMode loc.

(** The month count in a badge object's [subscriber] entry, when it
    parses. *)
Definition subscriberMonths (obj : option (list (string * string))) : option Z :=
  match obj with
  | Some bs =>
      match prop "subscriber" bs with
      | Some v =>
          if truthy (Some v)
          then match parseInt v with
               | Num months => Some months
               | NaN => None
               end
          else None
      | None => None
      end
  | None => None
  end.

(** A number that is truthy: neither [null], [NaN] nor zero. *)
Definition truthyNum (n : option JsNum) : option Z :=
  match n with
  | Some (Num z) => if Z.eqb z 0 then None else Some z
  | _ => None
  end.

Definition getSubscriptionMonths (m : ChatMessage) : option Z :=
  match platform m with
  | twitch =>
      match truthyNum (raw_subscriptionMonths (raw m)) with
      | Some z => Some z
      | None =>
          match subscriberMonths (raw_tags (raw m) ≫= tag_badges) with
          | Some months => Some months
          | None => subscriberMonths (raw_badges (raw m))
          end
      end
  | _ => None
  end.

(** [subscriptionMonths || 1] *)
Definition months (m : ChatMessage) : Z :=
  match getSubscriptionMonths m with
  | Some z => if Z.eqb z 0 then 1 else z
  | None => 1
  end.

Definition isTwitchSubscriber (m : ChatMessage) (badge : string) : bool :=
  match platform m with
  | twitch => String.eqb (toLowerCase badge) "subscriber"
  | _ => false
  end.

(** The subscriber badges of the channel: a catalog from the
    subscription-month tier to the badge's image, and its tiers. *)
Definition tiers (catalog : gmap Z string) : list Z :=
  elements (dom catalog).

Definition greatest (ts : list Z) : option Z :=
  foldr (fun t acc => Some (match acc with Some a => Z.max t a | None => t end))
    None ts.

Definition lowest (ts : list Z) : option Z :=
  foldr (fun t acc => Some (match acc with Some a => Z.min t a | None => t end))
    None ts.

(** Modelled from the spec: the tier selection of [getSubscriptionBadgeUrl]
    in [contexts/BadgeContext], which is not among the sources.  The exact
    tier is looked up; if it is absent the nearest tier not exceeding the
    month count is selected; if no tier is at or below the count, the
    lowest available tier. *)
Definition resolveTier (catalog : gmap Z string) (months : Z) : option Z :=
  match catalog !! months with
  | Some _ => Some months
  | None =>
      match greatest (List.filter (fun t => Z.leb t months) (tiers catalog)) with
      | Some t => Some t
      | None => lowest (tiers catalog)
      end
  end.

(** Modelled from the spec: [getSubscriptionBadgeUrl] of
    [contexts/BadgeContext], which is not among the sources: the image of
    the tier selected. *)
Definition getSubscriptionBadgeUrl (catalog : gmap Z string) (months : Z)
  : option string :=
  tier ← resolveTier catalog months; catalog !! tier.

(** The image the [ChatMessage] component shows for a subscriber badge. *)
Definition subscriptionBadgeUrl (catalog : gmap Z string) (m : ChatMessage)
  : option string :=
  getSubscriptionBadgeUrl catalog (months m).

End Client.

(** ** Inputs of the examples *)

(** The frame of the examples: the acknowledgment a viewer gets. *)
Definition ackFrame : Frame :=
  StatusFrame (mkWebSocketMessage "connection" (Some "Connected to multichat server")).

Definition exampleStringify (f : Frame) : string :=
  match f with
  | ChatFrame m => "chat:" +:+ id m
  | StatusFrame m => "status:" +:+ wsm_type m
  end.

Definition brokenPipe : JsError := mkError "Error" "write EPIPE".


(** A viewer whose [send] always throws, and one whose [send] never does. *)
Definition failingViewer : Hub.WebSocket :=
  Hub.mkWebSocket Hub.OPEN (fun _ _ => Some brokenPipe) [] [].

Definition healthyViewer : Hub.WebSocket :=
  Hub.mkWebSocket Hub.OPEN (fun _ _ => None) [] [].

(** An id generator for the examples: the draw number, in decimal, after
    a fixed prefix. *)
Definition exampleUuid (k : nat) : string := "00000000-0000-4000-8000-" +:+ pretty k.

Definition helloEvent : AdapterEvent :=
  mkAdapterEvent "User7" "Hello world 3" None None None.

Definition badgedEvent : AdapterEvent :=
  mkAdapterEvent "alice" "gg" (Some ["subscriber"; "vip"]) (Some "#FF0000") None.

(** A subscriber's message, a message without tags, and the bot's own
    message echoed back. *)
Definition subscriberTags : Tags :=
  mkTags (Some "Alice") (Some "alice") (Some "#1E90FF")
    (Some [("subscriber", "12"); ("premium", "1")]).

Definition subscriberMessage : Twitch.RawMessage :=
  Twitch.mkRawMessage "#somechannel" (Some subscriberTags) "hello" false.

Definition malformedMessage : Twitch.RawMessage :=
  Twitch.mkRawMessage "#somechannel" None "???" false.

Definition echoMessage : Twitch.RawMessage :=
  Twitch.mkRawMessage "#somechannel" (Some subscriberTags) "!uptime" true.

(** A callback that counts its calls and throws on every one. *)
Definition throwingCallback (evt : AdapterEvent) (calls : nat)
  : nat * option JsError :=
  (S calls, Some (mkError "Error" "callback failed")).

(** The error of [channel.startsWith('#')] on a missing [channel]. *)
Definition startsWithError : JsError :=
  TypeError "Cannot read properties of undefined (reading 'startsWith')".

(** An environment with the keys of Twitch and YouTube, and none for
    TikTok. *)
Definition exampleEnv : gmap string string :=
  list_to_map [("TWITCH_USERNAME", "multibot"); ("TWITCH_OAUTH", "oauth:abc");
               ("TWITCH_CHANNELS", "#one, two"); ("YT_CHANNEL_ID", "UC123")].

Definition emptyBoot : Server.Boot :=
  Server.mkBoot (Twitch.mkWorld [] []) [] [] 0.

(** The subscriber tiers of the specification's example. *)
Definition exampleCatalog : gmap Z string :=
  list_to_map [(1, "sub-1.png"); (3, "sub-3.png"); (6, "sub-6.png");
               (12, "sub-12.png"); (24, "sub-24.png")].

(** Three messages, one per platform, and a subscriber's message as the
    client receives it. *)
Definition exampleMessages : list ChatMessage :=
  [mkChatMessage "m1" 1000 twitch "Alice" "Hello there" ["subscriber"] None emptyRaw;
   mkChatMessage "m2" 1001 youtube "bob" "HELLO" ["member"] None emptyRaw;
   mkChatMessage "m3" 1002 tiktok "carol" "bye" [] None emptyRaw].

Definition subscriberChat : ChatMessage :=
  mkChatMessage "m4" 1003 twitch "Alice" "hi" ["subscriber"; "bits"] None
    (mkRaw (Some "#somechannel") (Some subscriberTags) (Some (Num 12)) None None).

Definition memberChat : ChatMessage :=
  mkChatMessage "m5" 1004 youtube "bob" "hi" ["member"] None emptyRaw.

(** ** The vocabulary of the specification *)

(** A value that is missing or empty. *)
Definition absentOrEmpty (v : option string) : Prop := v = None \/ v = Some "".

(** The environment keys each platform requires. *)
Definition requiredKeys (p : Platform) : list string :=
  match p with
  | twitch => ["TWITCH_USERNAME"; "TWITCH_OAUTH"; "TWITCH_CHANNELS"]
  | tiktok => ["TIKTOK_USERNAME"]
  | youtube => ["YT_CHANNEL_ID"]
  end.

(** Every required key of the platform is set, to a value that is not
    empty. *)
Definition configured (env : gmap string string) (p : Platform) : bool :=
  forallb (fun k => truthy (env !! k)) (requiredKeys p).

(** ** The rest of the server: connections and shutdown *)

Module Wss.

(** The acknowledgment sent to a viewer that connects. *)
Definition connectionAck : Frame :=
  StatusFrame (mkWebSocketMessage "connection" (Some "Connected to multichat server")).

Section Connection.

Variable DEBUG : bool.
Variable stringify : Frame -> string.

(** The ['connection'] listener of [wss].  [ws] is the new socket; the
    library has put it in [wss.clients] before it calls the listener.
    The [send] is not inside a [try]. *)
Definition onConnection (ws : Hub.WebSocket) : M Hub.WebSocketServer unit :=
  fun s =>
    let out := if DEBUG then console_log "[ws] client connected" (Hub.console s)
               else Hub.console s in
    let '(ws', thrown) := Hub.send (stringify connectionAck) ws in
    (Hub.mkWss (Hub.clients s ++ [ws']) out (S (Hub.stringifyCalls s)),
     match thrown with
     | None => Normal tt
     | Some e => Throw e
     end).

End Connection.

End Wss.

Module Shutdown.

(** What the [SIGINT] handler leaves: the console, the stop functions it
    has called (in call order) and the code given to [process.exit]. *)
Record Exit := mkExit {
  ex_console : Console;
  ex_stopped : list StopFunction;
  ex_code : Z
}.

Section Sigint.

(** [stopThrows called stop] is the error [await stop()] throws after the
    calls [called], if it throws. *)
Variable stopThrows : list StopFunction -> StopFunction -> option JsError.

(** The [for] loop over [stopFns]; every member is a function. *)
Fixpoint stopAll (fns : list StopFunction) (out : Console) (called : list StopFunction)
  : Console * list StopFunction :=
  match fns with
  | [] => (out, called)
  | stop :: rest =>
      match stopThrows called stop with
      | None => stopAll rest out (called ++ [stop])
      | Some error =>
          stopAll rest
            (console_error ("Error during shutdown: " +:+ errMessage error) out)
            (called ++ [stop])
      end
  end.

Definition shuttingDown : string :=
  String (ascii_of_nat 10) "Shutting down...".

Definition onSIGINT (b : Server.Boot) : Exit :=
  let out := console_log shuttingDown (Twitch.console (Server.world b)) in
  let '(out', called) := stopAll (Server.stopFns b) out [] in
  mkExit out' called 0.

(** The errors of the stop functions that throw, in call order. *)
Fixpoint stopErrors (fns : list StopFunction) (called : list StopFunction)
  : list JsError :=
  match fns with
  | [] => []
  | stop :: rest =>
      match stopThrows called stop with
      | None => stopErrors rest (called ++ [stop])
      | Some error => error :: stopErrors rest (called ++ [stop])
      end
  end.

End Sigint.

End Shutdown.

(** ** The stop function of the Twitch adapter *)

Module TwitchStop.

Section Stop.

Variable debug : bool.
(** [disconnect c] is what [client.disconnect()] does: the lines the
    library's own logger writes to the console, and the error the call
    rejects with, if it does. *)
Variable disconnect : Twitch.TmiClient -> Console * option JsError.

(** The closure's client, and the console. *)
Definition clientDisconnect : M (Twitch.TmiClient * Console) unit :=
  fun st =>
    match snd (disconnect (fst st)) with
    | Some e => ((fst st, snd st ++ fst (disconnect (fst st))), Throw e)
    | None =>
        ((Twitch.mkTmiClient (Twitch.tmi_debug (fst st)) (Twitch.tmi_channels (fst st))
            (Twitch.tmi_listeners (fst st)) false,
          snd st ++ fst (disconnect (fst st))),
         Normal tt)
    end.

Definition consoleLog (line : string) : M (Twitch.TmiClient * Console) unit :=
  fun st => ((fst st, console_log line (snd st)), Normal tt).

Definition consoleError (line : string) : M (Twitch.TmiClient * Console) unit :=
  fun st => ((fst st, console_error line (snd st)), Normal tt).

Definition stop : M (Twitch.TmiClient * Console) unit :=
  try_catch
    (clientDisconnect;;
     if debug then consoleLog "[twitch] disconnected" else mret tt)
    (fun error =>
       if debug
       then consoleError ("[twitch] disconnect error: " +:+ errMessage error)
       else mret tt).


End Stop.

End TwitchStop.

(** ** The client: the message list of [App] *)

Module App.

Record PlatformFilters := mkFilters {
  f_twitch : bool;
  f_youtube : bool;
  f_tiktok : bool
}.

(** [filters[platform]] *)
Definition enabled (filters : PlatformFilters) (p : Platform) : bool :=
  match p with
  | twitch => f_twitch filters
  | youtube => f_youtube filters
  | tiktok => f_tiktok filters
  end.

(** The initial state of [filters]. *)
Definition initialFilters : PlatformFilters := mkFilters true true true.

(** [setFilters((prev) => ({ ...prev, [platform]: enabled }))] *)
Definition handleFilterChange (prev : PlatformFilters) (p : Platform) (on : bool)
  : PlatformFilters :=
  match p with
  | twitch => mkFilters on (f_youtube prev) (f_tiktok prev)
  | youtube => mkFilters (f_twitch prev) on (f_tiktok prev)
  | tiktok => mkFilters (f_twitch prev) (f_youtube prev) on
  end.

(** [hay.includes(needle)] *)
Fixpoint includes (needle hay : string) : bool :=
  (String.prefix needle hay
   || match hay with
      | EmptyString => false
      | String _ rest => includes needle rest
      end)%bool.

(** The predicate of the [filter] in [filteredMessages]. *)
Definition shown (filters : PlatformFilters) (searchQuery : string)
    (m : ChatMessage) : bool :=
  if negb (enabled filters (platform m)) then false
  else if negb (String.eqb searchQuery "") then
    let query := toLowerCase searchQuery in
    (includes query (toLowerCase (username m))
     || includes query (toLowerCase (message m)))%bool
  else true.

Definition filteredMessages (filters : PlatformFilters) (searchQuery : string)
    (messages : list ChatMessage) : list ChatMessage :=
  List.filter (shown filters searchQuery) messages.

End App.

(** ** The client: the badges of a [ChatMessage] *)

Module Badge.

(** The text of an image's [alt] and [title]. *)
Inductive Alt :=
| SubscriberMonths (months : Z)
| CheeredBits (bits : Z)
| Title (text : string).

(** What the [map] over [badges] returns for one badge: an image, the
    plain label, or [null]. *)
Inductive Rendered :=
| Img (src : string) (alt : Alt)
| Label (text : string)
| Null.

Section Render.

(** The functions of [useBadges()] and of [utils/badgeUtils]. *)
Variable getSubscriptionBadgeUrl : Z -> option string.
Variable getCheerBadgeUrl : Z -> option string.
Variable getBadgeUrl : string -> option string.
Variable getBadgeInfo : string -> option string.

Definition isTwitchCheer (m : ChatMessage) (badge : string) : bool :=
  match platform m with
  | twitch =>
      (String.eqb (toLowerCase badge) "bits"
       || startsWith "cheer" (toLowerCase badge))%bool
  | _ => false
  end.

(** [raw?.cheerAmount || 1] *)
Definition bits (m : ChatMessage) : Z :=
  match raw_cheerAmount (raw m) with
  | Some z => if Z.eqb z 0 then 1 else z
  | None => 1
  end.

Definition isTwitch (m : ChatMessage) : bool :=
  match platform m with
  | twitch => true
  | _ => false
  end.

(** The last two statements of the callback. *)
Definition labelOrNull (isPublicMode : bool) (badge : string) : Rendered :=
  if negb isPublicMode then Label badge else Null.

(** The third: the global badges of Twitch. *)
Definition globalOrLabel (m : ChatMessage) (isPublicMode : bool) (badge : string)
  : Rendered :=
  if (isTwitch m && negb (Client.isTwitchSubscriber m badge)
      && negb (isTwitchCheer m badge))%bool
  then
    let badgeLower := toLowerCase badge in
    if truthy (getBadgeUrl badgeLower)
    then Img (default "" (getBadgeUrl badgeLower))
           (Title (or_str (getBadgeInfo badgeLower) badge))
    else labelOrNull isPublicMode badge
  else labelOrNull isPublicMode badge.

(** The second: cheer and bits badges. *)
Definition cheerOrLater (m : ChatMessage) (isPublicMode : bool) (badge : string)
  : Rendered :=
  if isTwitchCheer m badge
  then
    if truthy (getCheerBadgeUrl (bits m))
    then Img (default "" (getCheerBadgeUrl (bits m))) (CheeredBits (bits m))
    else globalOrLabel m isPublicMode badge
  else globalOrLabel m isPublicMode badge.

(** The callback of [badges.map]. *)
Definition renderBadge (m : ChatMessage) (isPublicMode : bool) (badge : string)
  : Rendered :=
  if Client.isTwitchSubscriber m badge
  then
    if truthy (getSubscriptionBadgeUrl (Client.months m))
    then Img (default "" (getSubscriptionBadgeUrl (Client.months m)))
           (SubscriberMonths (Client.months m))
    else cheerOrLater m isPublicMode badge
  else cheerOrLater m isPublicMode badge.

(** [badges.length > 0 && <div>{badges.map(...)}</div>] *)
Definition renderBadges (m : ChatMessage) (isPublicMode : bool)
  : option (list Rendered) :=
  match badges m with
  | [] => None
  | bs => Some (map (renderBadge m isPublicMode) bs)
  end.

End Render.

End Badge.

(** ** More vocabulary *)

(** The frames published while connection [i], whose state is [rs] at
    the start, is OPEN. *)
Fixpoint publishedWhileOpen (i : nat) (rs : Z) (evs : list Hub.HubEvent)
  : list Frame :=
  match evs with
  | [] => []
  | Hub.Publish msg :: rest =>
      if Z.eqb rs Hub.OPEN then msg :: publishedWhileOpen i rs rest
      else publishedWhileOpen i rs rest
  | Hub.SetReadyState j rs' :: rest =>
      publishedWhileOpen i (if Nat.eqb j i then rs' else rs) rest
  end.

(** Twitch events as they arrive, each at the time the clock shows then. *)
Module Arrival.

Section Arrival.

Variable debug : bool.
Variable onMessage :
  AdapterEvent -> Normalizer.Runtime * Hub.WebSocketServer ->
  (Normalizer.Runtime * Hub.WebSocketServer) * option JsError.

(** Time passes: [Date.now()] is [t] from here on. *)
Definition atTime (t : Z)
  : M (Twitch.Process (Normalizer.Runtime * Hub.WebSocketServer)) unit :=
  fun st =>
    (Twitch.mkProcess
       (Normalizer.mkRuntime (Normalizer.draws (fst (Twitch.app st))) t,
        snd (Twitch.app st))
       (Twitch.out st) (Twitch.onMessageCalls st),
     Normal tt).

(** The emitter calls the listener once per event, in order, each at its
    time of arrival; a throw that leaves the listener ends the stream. *)
Fixpoint emitAllAt (ms : list (Z * Twitch.RawMessage))
  : M (Twitch.Process (Normalizer.Runtime * Hub.WebSocketServer)) unit :=
  match ms with
  | [] => mret tt
  | (t, m) :: rest =>
      atTime t;; Twitch.onMessageListener _ debug onMessage m;; emitAllAt rest
  end.

End Arrival.

(** The call of [normalize] that an event arriving at [t] leads to, when
    it is delivered. *)
Definition normalizeCall (tm : Z * Twitch.RawMessage)
  : option (Z * Platform * AdapterEvent) :=
  match Twitch.delivered (snd tm) with
  | Some evt => Some (fst tm, twitch, evt)
  | None => None
  end.

End Arrival.

(** The outcome of the calls of [startTikTok] and [startYouTube] that
    [initializeAdapters] makes. *)
Definition tiktokOutcome (env : gmap string string)
    (startTikTok : string -> bool -> completion StopFunction)
  : completion StopFunction :=
  startTikTok (default "" (env !! "TIKTOK_USERNAME")) (Server.DEBUG env).

Definition youtubeOutcome (env : gmap string string)
    (startYouTube : string -> bool -> bool -> completion StopFunction)
  : completion StopFunction :=
  startYouTube (default "" (env !! "YT_CHANNEL_ID"))
    (String.eqb (toLowerCase (or_str (env !! "YT_RETRY_WHEN_OFFLINE") "true")) "true")
    (Server.DEBUG env).

(** The stop function an adapter leaves: the one its start returned, when
    it was started and returned. *)
Definition stopsKept (present : bool) (r : completion StopFunction)
  : list StopFunction :=
  if present
  then match r with
       | Normal stop => [stop]
       | Throw _ => []
       end
  else [].

(** The line a start that throws leaves on the console. *)
Definition failureLines (label : string) (present : bool) (r : completion StopFunction)
  : Console :=
  if present
  then match r with
       | Normal _ => []
       | Throw e => [(LevelError, label +:+ " Failed to start: " +:+ errMessage e)]
       end
  else [].

(** From [b] to [b'] the console grows by [extra]. *)
Definition grows (b b' : Server.Boot) (extra : Console) : Prop :=
  Twitch.console (Server.world b') = Twitch.console (Server.world b) ++ extra.

(** The line a stop function that throws leaves on the console. *)
Definition shutdownErrorLine (e : JsError) : ConsoleLevel * string :=
  (LevelError, "Error during shutdown: " +:+ errMessage e).

(** The message as it reaches the client: [JSON.stringify] writes [NaN]
    as [null]. *)
Definition received (m : ChatMessage) : ChatMessage :=
  mkChatMessage (id m) (ts m) (platform m) (username m) (message m) (badges m)
    (color m)
    (mkRaw (raw_channel (raw m)) (raw_tags (raw m))
       (match raw_subscriptionMonths (raw m) with
        | Some NaN => None
        | n => n
        end)
       (raw_badges (raw m)) (raw_cheerAmount (raw m))).


(** [n] slashes. *)
Fixpoint slashes (n : nat) : string :=
  match n with
  | O => ""
  | S k => String "/" (slashes k)
  end.

(** The fake-message generator is on. *)
Definition fakeMessages (env : gmap string string) : bool :=
  match env !! "FAKE_MESSAGES" with
  | Some v => String.eqb v "true"
  | None => false
  end.

(** * Properties *)

(** ** Truthiness *)

Lemma truthy_Some_nonempty (v : option string) :
  truthy v = true -> exists s, v = Some s /\ s <> "".
Proof.
  destruct v as [s|]; simpl; [|discriminate].
  intros H. exists s. split; [reflexivity|].
  intros ->. discriminate.
Qed.

Lemma truthy_None_or_empty (v : option string) :
  truthy v = false -> v = None \/ v = Some "".
Proof.
  destruct v as [s|]; simpl; [|now left].
  destruct (String.eqb_spec s ""); [subst; now right | discriminate].
Qed.

(** ** The Broadcast Hub *)

Section HubProperties.

Import Hub.

Variable DEBUG : bool.
Variable stringify : Frame -> string.

Lemma deliver_client (data : string) (c : WebSocket) (out : Console) :
  fst (deliver DEBUG data c out) = attempt data c.
Proof.
  unfold deliver, attempt.
  destruct (Z.eqb (readyState c) OPEN); [|reflexivity].
  unfold send. destruct (sendFails c (sendCalls c) data); reflexivity.
Qed.

Lemma deliver_console (data : string) (c : WebSocket) (out : Console) :
  snd (deliver DEBUG data c out)
  = out ++ (if DEBUG then map sendErrorLine (sendErrors data [c]) else []).
Proof.
  unfold deliver, sendErrors, send.
  destruct (Z.eqb (readyState c) OPEN);
    [destruct (sendFails c (sendCalls c) data)|];
    destruct DEBUG; simpl; rewrite ?app_nil_r; reflexivity.
Qed.

Lemma sendErrors_cons (data : string) (c : WebSocket) (cs : list WebSocket) :
  sendErrors data (c :: cs) = sendErrors data [c] ++ sendErrors data cs.
Proof.
  simpl. destruct (Z.eqb (readyState c) OPEN);
    [destruct (sendFails c (sendCalls c) data)|]; reflexivity.
Qed.

Lemma forEachClient_clients (data : string) (cs : list WebSocket) :
  forall out, fst (forEachClient DEBUG data cs out) = attempt data <$> cs.
Proof.
  induction cs as [|c cs IH]; intros out; csimpl; [reflexivity|].
  pose proof (deliver_client data c out) as Hc.
  destruct (deliver DEBUG data c out) as [c' out1]. simpl in Hc.
  specialize (IH out1).
  destruct (forEachClient DEBUG data cs out1) as [rest' out2]. simpl in *.
  congruence.
Qed.

Lemma forEachClient_console (data : string) (cs : list WebSocket) :
  forall out,
    snd (forEachClient DEBUG data cs out)
    = out ++ (if DEBUG then map sendErrorLine (sendErrors data cs) else []).
Proof.
  induction cs as [|c cs IH]; intros out.
  - simpl. destruct DEBUG; rewrite app_nil_r; reflexivity.
  - cbn [forEachClient].
    pose proof (deliver_console data c out) as Hc.
    destruct (deliver DEBUG data c out) as [c' out1]. simpl in Hc.
    specialize (IH out1).
    destruct (forEachClient DEBUG data cs out1) as [rest' out2].
    cbn [snd] in *. rewrite IH, Hc, sendErrors_cons.
    destruct DEBUG; rewrite ?map_app, ?app_nil_r, <- ?app_assoc; reflexivity.
Qed.

Lemma broadcast_clients (msg : Frame) (s : WebSocketServer) :
  clients (broadcast DEBUG stringify msg s)
  = attempt (stringify msg) <$> clients s.
Proof.
  unfold broadcast.
  pose proof (forEachClient_clients (stringify msg) (clients s) (console s)) as H.
  destruct (forEachClient DEBUG (stringify msg) (clients s) (console s)).
  exact H.
Qed.

Lemma broadcast_console (msg : Frame) (s : WebSocketServer) :
  console (broadcast DEBUG stringify msg s)
  = console s
    ++ (if DEBUG then map sendErrorLine (sendErrors (stringify msg) (clients s))
        else []).
Proof.
  unfold broadcast.
  pose proof (forEachClient_console (stringify msg) (clients s) (console s)) as H.
  destruct (forEachClient DEBUG (stringify msg) (clients s) (console s)).
  exact H.
Qed.

Lemma attempt_spec (data : string) (c : WebSocket) :
  readyState (attempt data c) = readyState c
  /\ sendFails (attempt data c) = sendFails c
  /\ if Z.eqb (readyState c) OPEN
     then sendCalls (attempt data c) = sendCalls c ++ [data]
          /\ frames (attempt data c)
             = match sendFails c (sendCalls c) data with
               | None => frames c ++ [data]
               | Some _ => frames c
               end
     else attempt data c = c.
Proof.
  unfold attempt, send.
  destruct (Z.eqb (readyState c) OPEN) eqn:Hopen.
  - destruct (sendFails c (sendCalls c) data); simpl; auto.
  - auto.
Qed.

(** C1, as amended.  A publish calls [JSON.stringify] once; every client
    keeps its place and its state; [send] is called, with that one
    string, on every client that is OPEN and on no other; a client whose
    [send] throws keeps its frames, and the clients after it are served
    all the same; the console gains one line per failed send when
    [DEBUG] is on, and nothing otherwise.  [broadcast] itself returns. *)
Theorem broadcast_isolates_send_failures (msg : Frame) (s : WebSocketServer) :
  let s' := broadcast DEBUG stringify msg s in
  let data := stringify msg in
  stringifyCalls s' = S (stringifyCalls s)
  /\ Forall2
       (fun c c' =>
          readyState c' = readyState c
          /\ if Z.eqb (readyState c) OPEN
             then sendCalls c' = sendCalls c ++ [data]
                  /\ frames c'
                     = match sendFails c (sendCalls c) data with
                       | None => frames c ++ [data]
                       | Some _ => frames c
                       end
             else c' = c)
       (clients s) (clients s')
  /\ console s'
     = console s
       ++ (if DEBUG then map sendErrorLine (sendErrors data (clients s)) else []).
Proof.
  intros s' data. subst s' data. split; [|split].
  - unfold broadcast.
    destruct (forEachClient DEBUG (stringify msg) (clients s) (console s)).
    reflexivity.
  - rewrite broadcast_clients.
    induction (clients s) as [|c cs IH]; csimpl; constructor; [|exact IH].
    destruct (attempt_spec (stringify msg) c) as (Hrs & _ & Hrest).
    split; [exact Hrs | exact Hrest].
  - apply broadcast_console.
Qed.

Lemma run_viewer (evs : list HubEvent) :
  forall (s : WebSocketServer) (i : nat) (a : WebSocket),
    clients s !! i = Some a ->
    readyState a = OPEN ->
    staysOpen i evs = true ->
    (forall calls data, sendFails a calls data = None) ->
    exists a',
      clients (run DEBUG stringify evs s) !! i = Some a'
      /\ readyState a' = OPEN
      /\ frames a' = frames a ++ map stringify (published evs).
Proof.
  induction evs as [|ev evs IH]; intros s i a Hi Hopen Hstay Hsend.
  - exists a. simpl. rewrite app_nil_r. auto.
  - simpl in Hstay. apply andb_true_iff in Hstay as [Hev Hstay].
    destruct ev as [msg | j rs]; cbn [run fold_left step published].
    + destruct (attempt_spec (stringify msg) a) as (Hrs & Hsf & Hatt).
      rewrite Hopen in Hatt. change (Z.eqb OPEN OPEN) with true in Hatt.
      destruct Hatt as [_ Hfr]. rewrite Hsend in Hfr.
      destruct (IH (broadcast DEBUG stringify msg s) i
                  (attempt (stringify msg) a)) as (a' & Ha' & Hopen' & Hfr').
      * rewrite broadcast_clients, list_lookup_fmap, Hi. reflexivity.
      * congruence.
      * exact Hstay.
      * intros calls data. rewrite Hsf. apply Hsend.
      * exists a'. split; [exact Ha'|]. split; [exact Hopen'|].
        rewrite Hfr', Hfr. cbn [map]. rewrite <- app_assoc. reflexivity.
    + destruct (Nat.eqb_spec j i) as [-> | Hne].
      * simpl in Hev. apply Z.eqb_eq in Hev. subst rs.
        destruct (IH (mkWss (alter (setReadyState OPEN) i (clients s))
                        (console s) (stringifyCalls s)) i
                    (setReadyState OPEN a)) as (a' & Ha' & Hopen' & Hfr').
        -- cbn [clients]. rewrite list_lookup_alter_eq, Hi. reflexivity.
        -- reflexivity.
        -- exact Hstay.
        -- exact Hsend.
        -- exists a'. auto.
      * destruct (IH (mkWss (alter (setReadyState rs) j (clients s))
                        (console s) (stringifyCalls s)) i a)
          as (a' & Ha' & Hopen' & Hfr').
        -- cbn [clients]. rewrite list_lookup_alter_ne by exact Hne. exact Hi.
        -- exact Hopen.
        -- exact Hstay.
        -- exact Hsend.
        -- exists a'. auto.
Qed.

(** C2, as amended.  Two connections that are OPEN and are not moved out
    of OPEN while a sequence of events runs, and on which no [send]
    throws, gain the same frames: the serialization of every published
    event, in the order the Hub received them. *)
Theorem viewers_observe_same_frames
    (evs : list HubEvent) (s : WebSocketServer) (i j : nat) (a b : WebSocket) :
  clients s !! i = Some a ->
  clients s !! j = Some b ->
  readyState a = OPEN ->
  readyState b = OPEN ->
  staysOpen i evs = true ->
  staysOpen j evs = true ->
  (forall calls data, sendFails a calls data = None) ->
  (forall calls data, sendFails b calls data = None) ->
  exists a' b',
    clients (run DEBUG stringify evs s) !! i = Some a'
    /\ clients (run DEBUG stringify evs s) !! j = Some b'
    /\ frames a' = frames a ++ map stringify (published evs)
    /\ frames b' = frames b ++ map stringify (published evs).
Proof.
  intros Hi Hj Ha Hb Hsi Hsj Hfa Hfb.
  destruct (run_viewer evs s i a Hi Ha Hsi Hfa) as (a' & Ha' & _ & Hfra).
  destruct (run_viewer evs s j b Hj Hb Hsj Hfb) as (b' & Hb' & _ & Hfrb).
  exists a', b'. auto.
Qed.

End HubProperties.

(** C1 as stated fails: with [DEBUG] off, the error of a failed send is
    caught and leaves no line on the console. *)
Lemma broadcast_send_error_not_logged :
  let s := Hub.mkWss [failingViewer; healthyViewer] [] 0 in
  let s' := Hub.broadcast false exampleStringify ackFrame s in
  Hub.sendFails failingViewer [] (exampleStringify ackFrame) = Some brokenPipe
  /\ Hub.console s' = []
  /\ Hub.frames <$> Hub.clients s' = [[]; ["status:connection"]].
Proof. repeat split. Qed.

(** C2 as stated fails: two connections OPEN across the same publish, one
    of which throws on [send], do not observe the same frames. *)
Lemma open_viewers_observe_different_frames :
  let s := Hub.mkWss [failingViewer; healthyViewer] [] 0 in
  let s' := Hub.run true exampleStringify [Hub.Publish ackFrame] s in
  Hub.readyState <$> Hub.clients s' = [Hub.OPEN; Hub.OPEN]
  /\ Hub.frames <$> Hub.clients s' = [[]; ["status:connection"]]
  /\ Hub.frames <$> Hub.clients s' !! 0%nat <> Hub.frames <$> Hub.clients s' !! 1%nat.
Proof. repeat split. discriminate. Qed.

(** The amended C2 on a run of two publishes with a third connection
    closing in between. *)
Lemma viewers_observe_same_frames_witness :
  let s := Hub.mkWss [healthyViewer; healthyViewer; failingViewer] [] 0 in
  let evs := [Hub.Publish ackFrame; Hub.SetReadyState 2 Hub.CLOSED;
              Hub.Publish ackFrame] in
  exists a' b',
    Hub.clients (Hub.run false exampleStringify evs s) !! 0%nat = Some a'
    /\ Hub.clients (Hub.run false exampleStringify evs s) !! 1%nat = Some b'
    /\ Hub.frames a' = [] ++ map exampleStringify (Hub.published evs)
    /\ Hub.frames b' = [] ++ map exampleStringify (Hub.published evs).
Proof.
  intros s evs.
  apply (viewers_observe_same_frames false exampleStringify evs s 0 1
           healthyViewer healthyViewer);
    reflexivity.
Defined.

(** ** The Normalizer *)

Section NormalizerProperties.

Import Normalizer.

Variable uuidv4 : nat -> string.

Lemma session_length (calls : list (Z * Platform * AdapterEvent)) :
  forall rt, length (session uuidv4 calls rt) = length calls.
Proof.
  induction calls as [|[[t p] evt] calls IH]; intros rt; simpl; [reflexivity|].
  now rewrite IH.
Qed.

(** The ids of a session are the generator's draws, one per call, from
    the first unused draw on. *)
Lemma session_ids (calls : list (Z * Platform * AdapterEvent)) :
  forall rt,
    map id (session uuidv4 calls rt)
    = map uuidv4 (seq (draws rt) (length calls)).
Proof.
  induction calls as [|[[t p] evt] calls IH]; intros rt; simpl; [reflexivity|].
  now rewrite IH.
Qed.

Lemma session_fields (calls : list (Z * Platform * AdapterEvent)) :
  forall rt,
    Forall2
      (fun call m =>
         let '(t, p, evt) := call in
         platform m = p
         /\ ts m = t
         /\ username m = ev_username evt
         /\ message m = ev_message evt
         /\ badges m = match ev_badges evt with
                       | Some bs => bs
                       | None => []
                       end
         /\ color m = match ev_color evt with
                      | Some c => if String.eqb c "" then None else Some c
                      | None => None
                      end
         /\ raw m = match ev_raw evt with
                    | Some r => r
                    | None => emptyRaw
                    end)
      calls (session uuidv4 calls rt).
Proof.
  induction calls as [|[[t p] evt] calls IH]; intros rt; simpl; constructor.
  - repeat split. cbn [color]. unfold orNull, truthy.
    destruct (ev_color evt) as [c|]; [|reflexivity].
    destruct (String.eqb c ""); reflexivity.
  - apply IH.
Qed.

(** C3.  In a session of [normalize] calls, when the generator's draws of
    the session are non-empty and pairwise distinct, the ids of the
    messages are non-empty and pairwise distinct; each message has the
    platform given at its call and the clock's time at its call as [ts];
    an absent badge list becomes the empty array and an absent color
    becomes [null]. *)
Theorem normalize_session
    (calls : list (Z * Platform * AdapterEvent)) (rt : Runtime) :
  NoDup (map uuidv4 (seq (draws rt) (length calls))) ->
  Forall (fun k => uuidv4 k <> "") (seq (draws rt) (length calls)) ->
  let msgs := session uuidv4 calls rt in
  NoDup (map id msgs)
  /\ Forall (fun m => id m <> "") msgs
  /\ Forall2
       (fun call m =>
          let '(t, p, evt) := call in
          platform m = p
          /\ ts m = t
          /\ username m = ev_username evt
          /\ message m = ev_message evt
          /\ badges m = match ev_badges evt with
                        | Some bs => bs
                        | None => []
                        end
          /\ color m = match ev_color evt with
                       | Some c => if String.eqb c "" then None else Some c
                       | None => None
                       end
          /\ raw m = match ev_raw evt with
                     | Some r => r
                     | None => emptyRaw
                     end)
       calls msgs.
Proof.
  intros Hdistinct Hnonempty msgs. subst msgs.
  split; [|split].
  - rewrite session_ids. exact Hdistinct.
  - apply Forall_forall. intros m Hm.
    assert (Hid : id m ∈ map id (session uuidv4 calls rt)).
    { apply list_elem_of_In, in_map, list_elem_of_In, Hm. }
    rewrite session_ids in Hid.
    apply list_elem_of_In, in_map_iff in Hid as (k & Hk & Hin).
    rewrite Forall_forall in Hnonempty.
    rewrite <- Hk. apply Hnonempty, list_elem_of_In, Hin.
  - apply session_fields.
Qed.

End NormalizerProperties.

(** C3 on a session of three calls, from a runtime that has handed out
    four ids. *)
Lemma normalize_session_witness :
  let calls := [(1000, twitch, helloEvent); (1000, youtube, badgedEvent);
                (1017, tiktok, helloEvent)] in
  let msgs := Normalizer.session exampleUuid calls (Normalizer.mkRuntime 4 0) in
  NoDup (map id msgs)
  /\ map platform msgs = [twitch; youtube; tiktok]
  /\ map ts msgs = [1000; 1000; 1017]
  /\ map badges msgs = [[]; ["subscriber"; "vip"]; []]
  /\ map color msgs = [None; Some "#FF0000"; None].
Proof.
  intros calls msgs.
  destruct (normalize_session exampleUuid calls (Normalizer.mkRuntime 4 0))
    as (Hdistinct & _ & _).
  - apply (bool_decide_unpack _). vm_compute. reflexivity.
  - apply (bool_decide_unpack _). vm_compute. reflexivity.
  - split; [exact Hdistinct|]. repeat split.
Defined.

(** ** The Twitch adapter *)

Section TwitchListenerProperties.

Import Twitch.

Variable App : Type.
Variable debug : bool.
Variable onMessage : AdapterEvent -> App -> App * option JsError.

(** One call of the listener: it returns, and [onMessage] has been
    called with the event when there is one to deliver. *)
Lemma onMessageListener_returns (m : RawMessage) (st : Process App) :
  exists st',
    onMessageListener App debug onMessage m st = (st', Normal tt)
    /\ onMessageCalls st'
       = onMessageCalls st ++ match delivered m with
                              | Some evt => [evt]
                              | None => []
                              end.
Proof.
  unfold onMessageListener, delivered.
  destruct (msg_self m).
  - exists st. split; [reflexivity|]. now rewrite app_nil_r.
  - unfold try_catch, readTags.
    destruct (msg_tags m) as [t|].
    + unfold mbind, M_bind, mret, M_ret, callOnMessage.
      destruct (onMessage (adapterEvent (msg_channel m) t (msg_text m)) (app st))
        as [app' [e|]].
      * destruct debug; eexists; split; reflexivity.
      * eexists; split; reflexivity.
    + unfold mbind, M_bind, throw.
      destruct debug; eexists; (split; [reflexivity|]); simpl;
        now rewrite app_nil_r.
Qed.

(** C5.  Whatever the events and whatever the callback does, no call of
    the listener throws; a run of the listener over a sequence of raw
    events reaches the end, and [onMessage] has been called, in order,
    with every event that is not a self echo and has its tags: an event
    whose processing threw does not keep a later one from being
    delivered. *)
Theorem listener_never_throws :
  (forall (m : RawMessage) (st : Process App),
      snd (onMessageListener App debug onMessage m st) = Normal tt)
  /\ (forall (ms : list RawMessage) (st : Process App),
        exists st',
          emitAll App debug onMessage ms st = (st', Normal tt)
          /\ onMessageCalls st' = onMessageCalls st ++ omap delivered ms).
Proof.
  split.
  - intros m st.
    destruct (onMessageListener_returns m st) as (st' & -> & _). reflexivity.
  - intros ms. induction ms as [|m ms IH]; intros st.
    + exists st. split; [reflexivity|]. simpl. now rewrite app_nil_r.
    + destruct (onMessageListener_returns m st) as (st1 & Hm & Hcalls).
      destruct (IH st1) as (st' & Hrest & Hcalls').
      exists st'. split.
      * cbn [emitAll]. unfold mbind, M_bind. rewrite Hm. exact Hrest.
      * rewrite Hcalls', Hcalls. cbn [omap]. unfold list_omap at 2.
        destruct (delivered m); cbn; rewrite <- app_assoc; reflexivity.
Qed.

(** C7.  For an event whose [self] flag is set the listener returns at
    once and leaves the process as it was: [onMessage] is not called. *)
Theorem self_echo_is_dropped (m : RawMessage) (st : Process App) :
  msg_self m = true ->
  onMessageListener App debug onMessage m st = (st, Normal tt)
  /\ delivered m = None.
Proof.
  intros Hself. unfold onMessageListener, delivered. rewrite Hself.
  split; reflexivity.
Qed.

End TwitchListenerProperties.

(** C7 on the bot's own message, with a callback that would throw. *)
Lemma self_echo_is_dropped_witness :
  let st := Twitch.mkProcess 0%nat [] [] in
  Twitch.onMessageListener nat true throwingCallback echoMessage st = (st, Normal tt)
  /\ Twitch.delivered echoMessage = None.
Proof.
  intros st.
  apply (self_echo_is_dropped nat true throwingCallback echoMessage st).
  reflexivity.
Defined.

(** A message without tags between two good ones, with [debug] on: the
    error is logged and both good messages reach the callback. *)
Example malformed_event_between_two :
  let st := Twitch.mkProcess 0%nat [] [] in
  let '(st', r) :=
    Twitch.emitAll nat true (fun _ n => (S n, None))
      [subscriberMessage; malformedMessage; subscriberMessage] st in
  r = Normal tt
  /\ Twitch.app st' = 2%nat
  /\ map ev_username (Twitch.onMessageCalls st') = ["Alice"; "Alice"]
  /\ Twitch.out st'
     = [(LevelError,
         "[twitch] message processing error: Cannot read properties of undefined (reading 'badges')")].
Proof. vm_compute. repeat split. Qed.

(** C8.  The message [normalize] makes of a Twitch event has a username
    that is not empty: the display name when there is one, otherwise the
    source username, and the fallback ["unknown"] when both are absent or
    empty. *)
Theorem twitch_username_nonempty
    (uuidv4 : nat -> string) (rt : Normalizer.Runtime)
    (channel : string) (t : Tags) (text : string) :
  let m := fst (Normalizer.normalize uuidv4 twitch
                  (Twitch.adapterEvent channel t text) rt) in
  username m <> ""
  /\ ((exists d, tag_display_name t = Some d /\ d <> "" /\ username m = d)
      \/ (absentOrEmpty (tag_display_name t)
          /\ exists u, tag_username t = Some u /\ u <> "" /\ username m = u)
      \/ (absentOrEmpty (tag_display_name t)
          /\ absentOrEmpty (tag_username t)
          /\ username m = "unknown")).
Proof.
  cbn. unfold or_else, absentOrEmpty.
  destruct (truthy (tag_display_name t)) eqn:Hd.
  - destruct (truthy_Some_nonempty _ Hd) as (d & Hdn & Hne).
    rewrite Hdn. cbn.
    destruct (String.eqb_spec d ""); [contradiction|].
    split; [assumption|]. left. exists d. auto.
  - apply truthy_None_or_empty in Hd.
    destruct (truthy (tag_username t)) eqn:Hu.
    + destruct (truthy_Some_nonempty _ Hu) as (u & Hun & Hne).
      rewrite Hun. cbn.
      destruct (String.eqb_spec u ""); [contradiction|].
      split; [assumption|]. right. left. split; [exact Hd|]. exists u. auto.
    + apply truthy_None_or_empty in Hu.
      assert (Hname : or_str (tag_username t) "unknown" = "unknown")
        by (destruct Hu as [-> | ->]; reflexivity).
      rewrite Hname. split; [discriminate|]. right. right. auto.
Qed.

(** ** The start of the adapters *)

Section StartProperties.

Import Server.

Variable env : gmap string string.
Variable connect : list string -> Console * option JsError.
Variable startTikTok : string -> bool -> completion StopFunction.
Variable startYouTube : string -> bool -> bool -> completion StopFunction.

Lemma startTwitch_throws (cfg : Twitch.TwitchAdapterConfig) (w : Twitch.World) :
  Twitch.cfg_channel cfg = None ->
  Twitch.startTwitch connect cfg w = (w, Throw startsWithError).
Proof. intros Hc. unfold Twitch.startTwitch. rewrite Hc. reflexivity. Qed.

Lemma configured_twitch :
  configured env twitch
  = (truthy (env !! "TWITCH_USERNAME") && truthy (env !! "TWITCH_OAUTH")
     && truthy (env !! "TWITCH_CHANNELS"))%bool.
Proof. unfold configured. simpl. now rewrite andb_true_r, andb_assoc. Qed.

Lemma configured_tiktok : configured env tiktok = truthy (env !! "TIKTOK_USERNAME").
Proof. unfold configured. simpl. now rewrite andb_true_r. Qed.

Lemma configured_youtube : configured env youtube = truthy (env !! "YT_CHANNEL_ID").
Proof. unfold configured. simpl. now rewrite andb_true_r. Qed.

(** What [initTwitch] does, in full. *)
Lemma initTwitch_spec (b : Boot) :
  initTwitch env connect b
  = (mkBoot
       (Twitch.mkWorld (Twitch.tmiClients (world b))
          (Twitch.console (world b)
           ++ (if configured env twitch
               then [(LevelError,
                      "[twitch] Failed to start: " +:+ errMessage startsWithError)]
               else if DEBUG env
                    then [(LevelLog, "[twitch] skipped (missing env)")]
                    else [])))
       (stopFns b)
       (startCalls b ++ (if configured env twitch then [twitch] else []))
       (intervals b),
     Normal tt).
Proof.
  unfold initTwitch. rewrite configured_twitch.
  destruct (truthy (env !! "TWITCH_USERNAME") && truthy (env !! "TWITCH_OAUTH")
            && truthy (env !! "TWITCH_CHANNELS"))%bool.
  - unfold try_catch, mbind, M_bind, entered, liftWorld. cbn [world].
    rewrite startTwitch_throws by reflexivity. reflexivity.
  - destruct b as [[cs out] fns calls n].
    destruct (DEBUG env); cbn; rewrite !app_nil_r; reflexivity.
Qed.

Lemma initTikTok_calls (b : Boot) :
  exists b',
    initTikTok env startTikTok b = (b', Normal tt)
    /\ startCalls b' = startCalls b ++ (if configured env tiktok then [tiktok] else [])
    /\ Twitch.tmiClients (world b') = Twitch.tmiClients (world b).
Proof.
  unfold initTikTok. rewrite configured_tiktok.
  destruct (truthy (env !! "TIKTOK_USERNAME")).
  - unfold try_catch, mbind, M_bind, entered, outcome.
    destruct (startTikTok _ _); eexists; (split; [reflexivity|]); cbn; auto.
  - destruct (DEBUG env); eexists; (split; [reflexivity|]); cbn;
      rewrite app_nil_r; auto.
Qed.

Lemma initYouTube_calls (b : Boot) :
  exists b',
    initYouTube env startYouTube b = (b', Normal tt)
    /\ startCalls b' = startCalls b ++ (if configured env youtube then [youtube] else [])
    /\ Twitch.tmiClients (world b') = Twitch.tmiClients (world b).
Proof.
  unfold initYouTube. rewrite configured_youtube.
  destruct (truthy (env !! "YT_CHANNEL_ID")).
  - unfold try_catch, mbind, M_bind, entered, outcome, consoleLog, liftWorld.
    cbn [world startCalls stopFns intervals].
    destruct (startYouTube _ _ _); eexists; (split; [reflexivity|]); cbn; auto.
  - eexists; (split; [reflexivity|]); cbn; rewrite app_nil_r; auto.
Qed.

Lemma initFakeMessages_calls (b : Boot) :
  exists b',
    initFakeMessages env b = (b', Normal tt)
    /\ startCalls b' = startCalls b
    /\ Twitch.tmiClients (world b') = Twitch.tmiClients (world b).
Proof.
  unfold initFakeMessages.
  destruct (env !! "FAKE_MESSAGES") as [v|]; [destruct (String.eqb v "true")|];
    eexists; (split; [reflexivity|]); cbn; auto.
Qed.

Lemma initializeAdapters_calls (b : Boot) :
  exists b',
    initializeAdapters env connect startTikTok startYouTube b = (b', Normal tt)
    /\ startCalls b'
       = startCalls b ++ List.filter (configured env) [twitch; tiktok; youtube]
    /\ Twitch.tmiClients (world b') = Twitch.tmiClients (world b).
Proof.
  unfold initializeAdapters, mbind, M_bind.
  rewrite initTwitch_spec.
  match goal with |- context [initTikTok _ _ ?b1] =>
    destruct (initTikTok_calls b1) as (b2 & -> & Hc2 & Hw2) end.
  destruct (initYouTube_calls b2) as (b3 & -> & Hc3 & Hw3).
  destruct (initFakeMessages_calls b3) as (b4 & -> & Hc4 & Hw4).
  exists b4. split; [reflexivity|]. split.
  - rewrite Hc4, Hc3, Hc2. cbn [startCalls List.filter].
    destruct (configured env twitch), (configured env tiktok),
      (configured env youtube); rewrite <- ?app_assoc; reflexivity.
  - rewrite Hw4, Hw3, Hw2. reflexivity.
Qed.

(** C9.  [startTwitch] throws a [TypeError] on a configuration without
    [channel], before it has made a client or registered a listener or
    written a line.  The configuration the server builds has no
    [channel].  So [initTwitch] never adds a stop function and never
    leaves a Twitch client behind: with the keys in place it calls
    [startTwitch] and logs the failure, without them it skips; and no
    Twitch client exists after [initializeAdapters] either. *)
Theorem twitch_adapter_never_starts
    (cfg : Twitch.TwitchAdapterConfig) (w : Twitch.World) (b : Boot) :
  Twitch.cfg_channel cfg = None ->
  Twitch.startTwitch connect cfg w
  = (w, Throw (TypeError "Cannot read properties of undefined (reading 'startsWith')"))
  /\ Twitch.cfg_channel (twitchConfig env) = None
  /\ (exists b',
        initTwitch env connect b = (b', Normal tt)
        /\ stopFns b' = stopFns b
        /\ Twitch.tmiClients (world b') = Twitch.tmiClients (world b)
        /\ startCalls b'
           = startCalls b ++ (if configured env twitch then [twitch] else [])
        /\ Twitch.console (world b')
           = Twitch.console (world b)
             ++ (if configured env twitch
                 then [(LevelError,
                        "[twitch] Failed to start: Cannot read properties of undefined (reading 'startsWith')")]
                 else if DEBUG env
                      then [(LevelLog, "[twitch] skipped (missing env)")]
                      else []))
  /\ (exists b',
        initializeAdapters env connect startTikTok startYouTube b = (b', Normal tt)
        /\ Twitch.tmiClients (world b') = Twitch.tmiClients (world b)).
Proof.
  intros Hc. split; [|split; [|split]].
  - apply startTwitch_throws, Hc.
  - reflexivity.
  - eexists. split; [apply initTwitch_spec|]. cbn. auto.
  - destruct (initializeAdapters_calls b) as (b' & Hrun & _ & Hw).
    exists b'. auto.
Qed.

(** The skipping of an adapter.  When a key a platform requires is absent
from the environment, [initializeAdapters] returns without throwing and
has not called that platform's start function; the start functions it has
called are those of the platforms all of whose required keys are set, in
the order Twitch, TikTok, YouTube. *)
Theorem adapter_skipped_when_key_absent (b : Boot) (p : Platform) (k : string) :
  In k (requiredKeys p) ->
  env !! k = None ->
  exists b',
    initializeAdapters env connect startTikTok startYouTube b = (b', Normal tt)
    /\ startCalls b'
       = startCalls b ++ List.filter (configured env) [twitch; tiktok; youtube]
    /\ ~ In p (List.filter (configured env) [twitch; tiktok; youtube]).
Proof.
  intros Hk Habsent.
  destruct (initializeAdapters_calls b) as (b' & Hrun & Hcalls & _).
  exists b'. split; [exact Hrun|]. split; [exact Hcalls|].
  intros Hin. apply filter_In in Hin as [_ Hconf].
  unfold configured in Hconf. rewrite forallb_forall in Hconf.
  specialize (Hconf k Hk). rewrite Habsent in Hconf. discriminate.
Qed.

End StartProperties.

(** C9 on the configuration the server builds from an environment with
    all three Twitch keys. *)
Lemma twitch_adapter_never_starts_witness :
  Twitch.startTwitch (fun _ => ([], None)) (Server.twitchConfig exampleEnv)
    (Twitch.mkWorld [] [])
  = (Twitch.mkWorld [] [],
     Throw (TypeError "Cannot read properties of undefined (reading 'startsWith')"))
  /\ Server.stopFns
       (fst (Server.initTwitch exampleEnv (fun _ => ([], None)) emptyBoot)) = []
  /\ Server.startCalls
       (fst (Server.initTwitch exampleEnv (fun _ => ([], None)) emptyBoot)) = [twitch].
Proof.
  destruct (twitch_adapter_never_starts exampleEnv (fun _ => ([], None))
              (fun _ _ => Normal StopTikTok) (fun _ _ _ => Normal StopYouTube)
              (Server.twitchConfig exampleEnv) (Twitch.mkWorld [] []) emptyBoot)
    as (Hthrow & _ & (b' & Hinit & Hstop & _ & Hcalls & _) & _).
  - reflexivity.
  - split; [exact Hthrow|]. rewrite Hinit. split; [exact Hstop | exact Hcalls].
Defined.

(** The skipping on an environment without [TIKTOK_USERNAME]: the start
    functions of Twitch and YouTube are called, that of TikTok is not. *)
Lemma adapter_skipped_when_key_absent_witness :
  exists b',
    Server.initializeAdapters exampleEnv (fun _ => ([], None))
      (fun _ _ => Normal StopTikTok) (fun _ _ _ => Normal StopYouTube) emptyBoot
    = (b', Normal tt)
    /\ Server.startCalls b'
       = Server.startCalls emptyBoot
         ++ List.filter (configured exampleEnv) [twitch; tiktok; youtube]
    /\ ~ In tiktok (List.filter (configured exampleEnv) [twitch; tiktok; youtube]).
Proof.
  apply (adapter_skipped_when_key_absent exampleEnv (fun _ => ([], None))
           (fun _ _ => Normal StopTikTok) (fun _ _ _ => Normal StopYouTube)
           emptyBoot tiktok "TIKTOK_USERNAME").
  - simpl. auto.
  - vm_compute. reflexivity.
Defined.

(** C6, on an environment that has every key of Twitch and of YouTube and
    none of TikTok.  TikTok is skipped and nothing is thrown, YouTube is
    started and its stop function kept; Twitch, all of whose keys are
    present, is not started: its start function is called and throws, the
    console gets the failure, and there is neither a client nor a stop
    function for it. *)
Theorem twitch_configured_but_not_started :
  let '(b', r) :=
    Server.initializeAdapters exampleEnv (fun _ => ([], None))
      (fun _ _ => Normal StopTikTok) (fun _ _ _ => Normal StopYouTube) emptyBoot in
  configured exampleEnv <$> [twitch; tiktok; youtube] = [true; false; true]
  /\ r = Normal tt
  /\ Server.startCalls b' = [twitch; youtube]
  /\ Server.stopFns b' = [StopYouTube]
  /\ Twitch.tmiClients (Server.world b') = []
  /\ Twitch.console (Server.world b')
     = [(LevelError,
         "[twitch] Failed to start: Cannot read properties of undefined (reading 'startsWith')");
        (LevelLog, "[youtube] starting with channel id: UC123")].
Proof. vm_compute. repeat split. Qed.

(** ** The client's display mode *)

Section ClientProperties.

Import Client.

Lemma existsb_eqb_In (v : string) (l : list string) :
  existsb (String.eqb v) l = true <-> In v l.
Proof.
  rewrite existsb_exists. split.
  - intros (x & Hin & Heq). apply String.eqb_eq in Heq. now subst.
  - intros Hin. exists v. split; [exact Hin | apply String.eqb_refl].
Qed.

(** C10.  The client is in public mode exactly when [mode] is [public],
    or else when neither the first value of [private] in the query string
    is one of [1], [true], [yes] in any letter case nor the path without
    its trailing slashes is [/private]; messages expire exactly in public
    mode.  So a URL that asks for the private mode in neither way is
    public, also with [mode=private], and one that asks for it by the
    parameter or by the path, and does not set [mode=public], is
    private. *)
Theorem public_mode_unless_private (loc : Location) :
  (isPublicMode loc = true
   <-> get "mode" (search loc) = Some "public"
       \/ ((forall v, get "private" (search loc) = Some v ->
                      ~ In (toLowerCase v) ["1"; "true"; "yes"])
           /\ stripTrailingSlashes (pathname loc) <> "/private"))
  /\ autoExpire loc = isPublicMode loc.
Proof.
  split; [|reflexivity].
  assert (Hparam : isPrivateParam loc = false
                   <-> forall v, get "private" (search loc) = Some v ->
                                 ~ In (toLowerCase v) ["1"; "true"; "yes"]).
  { unfold isPrivateParam. destruct (get "private" (search loc)) as [w|].
    - split.
      + intros Hex v [= <-] Hin. apply existsb_eqb_In in Hin. congruence.
      + intros Hno. apply not_true_is_false. intros Hex.
        apply existsb_eqb_In in Hex. exact (Hno w eq_refl Hex).
    - split; [intros _ v Hv; discriminate | reflexivity]. }
  assert (Hpath : isPrivatePath loc = false
                  <-> stripTrailingSlashes (pathname loc) <> "/private")
    by (unfold isPrivatePath; apply String.eqb_neq).
  assert (Hmode : match get "mode" (search loc) with
                  | Some v => String.eqb v "public"
                  | None => false
                  end = true
                  <-> get "mode" (search loc) = Some "public").
  { destruct (get "mode" (search loc)) as [v|].
    - rewrite String.eqb_eq. split; [intros ->; reflexivity | intros [= ->]; reflexivity].
    - split; discriminate. }
  unfold isPublicMode.
  rewrite orb_true_iff, negb_true_iff, orb_false_iff, Hmode, Hparam, Hpath.
  reflexivity.
Qed.

(** The other direction: private mode is selected only by the parameter
    or by the path. *)
Lemma private_mode_only_when_asked (loc : Location) :
  isPublicMode loc = false ->
  (exists v, get "private" (search loc) = Some v
             /\ In (toLowerCase v) ["1"; "true"; "yes"])
  \/ stripTrailingSlashes (pathname loc) = "/private".
Proof.
  unfold isPublicMode. intros H.
  apply orb_false_iff in H as [_ H]. apply negb_false_iff, orb_true_iff in H.
  destruct H as [H | H].
  - left. unfold isPrivateParam in H.
    destruct (get "private" (search loc)) as [v|]; [|discriminate].
    exists v. split; [reflexivity|]. now apply existsb_eqb_In.
  - right. now apply String.eqb_eq.
Qed.

End ClientProperties.

(** C10 on four URLs: [/?mode=private] and [/] are public, and messages
    expire there; [/?private=YES] and [/private/] are private. *)
Lemma public_mode_unless_private_witness :
  Client.isPublicMode (Client.mkLocation [("mode", "private")] "/") = true
  /\ Client.autoExpire (Client.mkLocation [("mode", "private")] "/") = true
  /\ Client.isPublicMode (Client.mkLocation [] "/") = true
  /\ Client.isPublicMode (Client.mkLocation [("private", "YES")] "/") = false
  /\ Client.autoExpire (Client.mkLocation [("private", "YES")] "/") = false
  /\ Client.isPublicMode (Client.mkLocation [] "/private/") = false.
Proof.
  destruct (public_mode_unless_private
              (Client.mkLocation [("mode", "private")] "/")) as [[_ Hmode] Hexp].
  destruct (public_mode_unless_private (Client.mkLocation [] "/")) as [[_ Hnone] _].
  destruct (public_mode_unless_private
              (Client.mkLocation [("private", "YES")] "/")) as [[Hparam _] Hexp'].
  destruct (public_mode_unless_private
              (Client.mkLocation [] "/private/")) as [[Hpath _] _].
  assert (H1 : Client.isPublicMode (Client.mkLocation [("mode", "private")] "/") = true).
  { apply Hmode. right. split.
    - intros v Hv. vm_compute in Hv. discriminate.
    - vm_compute. discriminate. }
  assert (H3 : Client.isPublicMode (Client.mkLocation [("private", "YES")] "/") = false).
  { apply not_true_is_false. intros Hpub.
    destruct (Hparam Hpub) as [Hm | [Hno _]].
    - vm_compute in Hm. discriminate.
    - apply (Hno "YES"); [reflexivity | vm_compute; auto]. }
  split; [exact H1|]. split; [rewrite Hexp; exact H1|].
  split.
  { apply Hnone. right. split.
    - intros v Hv. vm_compute in Hv. discriminate.
    - vm_compute. discriminate. }
  split; [exact H3|]. split; [rewrite Hexp'; exact H3|].
  apply not_true_is_false. intros Hpub.
  destruct (Hpath Hpub) as [Hm | [_ Hne]].
  - vm_compute in Hm. discriminate.
  - apply Hne. vm_compute. reflexivity.
Defined.

Example display_modes :
  Client.isPublicMode (Client.mkLocation [] "/") = true
  /\ Client.isPublicMode (Client.mkLocation [("private", "TRUE")] "/") = false
  /\ Client.isPublicMode (Client.mkLocation [] "/private//") = false
  /\ Client.isPublicMode (Client.mkLocation [("private", "0"); ("private", "1")] "/") = true
  /\ Client.isPublicMode (Client.mkLocation [("mode", "public"); ("private", "1")] "/private")
     = true.
Proof. vm_compute. repeat split. Qed.

(** ** Subscription badges *)

Section BadgeProperties.

Import Client.

Lemma greatest_spec (l : list Z) :
  match greatest l with
  | Some t => In t l /\ forall u, In u l -> u <= t
  | None => l = []
  end.
Proof.
  induction l as [|x l IH]; [reflexivity|].
  cbn [greatest foldr]. fold (greatest l).
  destruct (greatest l) as [a|].
  - destruct IH as [Hin Hmax]. split.
    + destruct (Z.max_spec x a) as [[_ ->] | [_ ->]]; [right | left]; auto.
    + intros u [<- | Hu]; [lia|]. specialize (Hmax u Hu). lia.
  - subst l. split; [now left|]. intros u [<- | []]. lia.
Qed.

Lemma lowest_spec (l : list Z) :
  match lowest l with
  | Some t => In t l /\ forall u, In u l -> t <= u
  | None => l = []
  end.
Proof.
  induction l as [|x l IH]; [reflexivity|].
  cbn [lowest foldr]. fold (lowest l).
  destruct (lowest l) as [a|].
  - destruct IH as [Hin Hmin]. split.
    + destruct (Z.min_spec x a) as [[_ ->] | [_ ->]]; [left | right]; auto.
    + intros u [<- | Hu]; [lia|]. specialize (Hmin u Hu). lia.
  - subst l. split; [now left|]. intros u [<- | []]. lia.
Qed.

Lemma In_tiers (catalog : gmap Z string) (t : Z) :
  In t (tiers catalog) <-> is_Some (catalog !! t).
Proof.
  unfold tiers. rewrite <- list_elem_of_In, elem_of_elements. apply elem_of_dom.
Qed.

(** C4.  The tier a month count resolves to: the count itself when the
    catalog has it; otherwise the greatest tier of the catalog that does
    not exceed the count; when every tier exceeds the count, the lowest
    tier (and nothing for an empty catalog).  The count 37 on the tiers
    1, 3, 6, 12, 24 resolves to 24.  The count the component looks up is
    the message's own when it is known and not zero, and 1 otherwise. *)
Theorem subscription_tier_fallback
    (catalog : gmap Z string) (n : Z) (m : ChatMessage) :
  ((is_Some (catalog !! n) /\ resolveTier catalog n = Some n)
   \/ (catalog !! n = None
       /\ exists t, resolveTier catalog n = Some t
                    /\ is_Some (catalog !! t) /\ t <= n
                    /\ forall u, is_Some (catalog !! u) -> u <= n -> u <= t)
   \/ (catalog !! n = None
       /\ (forall u, is_Some (catalog !! u) -> n < u)
       /\ exists t, resolveTier catalog n = Some t
                    /\ is_Some (catalog !! t)
                    /\ forall u, is_Some (catalog !! u) -> t <= u)
   \/ (catalog = ∅ /\ resolveTier catalog n = None))
  /\ resolveTier exampleCatalog 37 = Some 24
  /\ ((exists z, getSubscriptionMonths m = Some z /\ z <> 0 /\ months m = z)
      \/ ((getSubscriptionMonths m = None \/ getSubscriptionMonths m = Some 0)
          /\ months m = 1))
  /\ subscriptionBadgeUrl catalog m
     = (tier ← resolveTier catalog (months m); catalog !! tier).
Proof.
  split; [|split; [|split]].
  - unfold resolveTier. destruct (catalog !! n) as [url|] eqn:Hn.
    + left. split; [eauto | reflexivity].
    + right.
      pose proof (greatest_spec (List.filter (fun t => Z.leb t n) (tiers catalog)))
        as Hg.
      destruct (greatest (List.filter (fun t => Z.leb t n) (tiers catalog)))
        as [t|].
      * left. split; [reflexivity|]. exists t.
        destruct Hg as [Hin Hmax]. apply filter_In in Hin as [Hin Hle].
        split; [reflexivity|]. split; [now apply In_tiers|].
        split; [now apply Z.leb_le|].
        intros u Hu Hun. apply Hmax, filter_In.
        split; [now apply In_tiers | now apply Z.leb_le].
      * right.
        assert (Habove : forall u, is_Some (catalog !! u) -> n < u).
        { intros u Hu. destruct (Z.leb u n) eqn:Hle; [|now apply Z.leb_gt].
          assert (Hin : In u (List.filter (fun t => Z.leb t n) (tiers catalog)))
            by (apply filter_In; split; [now apply In_tiers | exact Hle]).
          rewrite Hg in Hin. destruct Hin. }
        pose proof (lowest_spec (tiers catalog)) as Hl.
        destruct (lowest (tiers catalog)) as [t|].
        -- left. split; [reflexivity|]. split; [exact Habove|].
           exists t. destruct Hl as [Hin Hmin].
           split; [reflexivity|]. split; [now apply In_tiers|].
           intros u Hu. now apply Hmin, In_tiers.
        -- right. split; [|reflexivity].
           apply map_empty. intros i.
           destruct (catalog !! i) eqn:Hi; [|reflexivity].
           assert (Hin : In i (tiers catalog)) by (apply In_tiers; eauto).
           rewrite Hl in Hin. destruct Hin.
  - vm_compute. reflexivity.
  - unfold months. destruct (getSubscriptionMonths m) as [z|]; [|right; auto].
    destruct (Z.eqb_spec z 0) as [-> | Hz]; [right; auto|].
    left. exists z. auto.
  - reflexivity.
Qed.

(** The examples of the specification: 37 months on the tiers 1 to 24,
    and a count below every tier. *)
Example subscription_tiers :
  getSubscriptionBadgeUrl exampleCatalog 37 = Some "sub-24.png"
  /\ getSubscriptionBadgeUrl exampleCatalog 12 = Some "sub-12.png"
  /\ getSubscriptionBadgeUrl exampleCatalog 1 = Some "sub-1.png"
  /\ getSubscriptionBadgeUrl (delete 1 exampleCatalog) 2 = Some "sub-3.png"
  /\ getSubscriptionBadgeUrl ∅ 2 = None.
Proof. vm_compute. repeat split. Qed.

End BadgeProperties.

(** * Further properties of the code *)

(** ** The Hub over a run of events *)

Section HubRunProperties.

Import Hub.

Variable DEBUG : bool.
Variable stringify : Frame -> string.

Lemma run_cons (ev : HubEvent) (evs : list HubEvent) (s : WebSocketServer) :
  run DEBUG stringify (ev :: evs) s
  = run DEBUG stringify evs (step DEBUG stringify s ev).
Proof. reflexivity. Qed.

Lemma step_lookup_publish (msg : Frame) (s : WebSocketServer) (i : nat) (a : WebSocket) :
  clients s !! i = Some a ->
  clients (step DEBUG stringify s (Publish msg)) !! i
  = Some (attempt (stringify msg) a).
Proof.
  intros Hi. cbn [step]. rewrite broadcast_clients, list_lookup_fmap, Hi.
  reflexivity.
Qed.

Lemma step_lookup_state (j : nat) (rs : Z) (s : WebSocketServer) (i : nat) (a : WebSocket) :
  clients s !! i = Some a ->
  clients (step DEBUG stringify s (SetReadyState j rs)) !! i
  = Some (if Nat.eqb j i then setReadyState rs a else a).
Proof.
  intros Hi. cbn [step clients].
  destruct (Nat.eqb_spec j i) as [-> | Hne].
  - rewrite list_lookup_alter_eq, Hi. reflexivity.
  - rewrite list_lookup_alter_ne by exact Hne. exact Hi.
Qed.

(** X1.  Whatever the sends do and however the connections change state,
    a connection keeps the frames it has and gains, over a run, a
    subsequence of the published frames in publishing order: no frame
    reaches it twice, none out of order, none that was not published. *)
Theorem frames_gained_are_sublist_of_published
    (evs : list HubEvent) (s : WebSocketServer) (i : nat) (a : WebSocket) :
  clients s !! i = Some a ->
  exists a' gained,
    clients (run DEBUG stringify evs s) !! i = Some a'
    /\ frames a' = frames a ++ gained
    /\ sublist gained (map stringify (published evs)).
Proof.
  revert s a. induction evs as [|ev evs IH]; intros s a Hi.
  - exists a, []. cbn. rewrite app_nil_r. auto using sublist_nil.
  - rewrite run_cons. destruct ev as [msg | j rs].
    + destruct (IH _ _ (step_lookup_publish msg s i a Hi))
        as (a' & gained & Ha' & Hfr & Hsub).
      destruct (attempt_spec (stringify msg) a) as (_ & _ & Hatt).
      destruct (Z.eqb (readyState a) OPEN).
      * destruct Hatt as [_ Hfa].
        destruct (sendFails a (sendCalls a) (stringify msg)).
        -- exists a', gained. rewrite Hfa in Hfr. cbn [published map].
           auto using sublist_cons.
        -- exists a', (stringify msg :: gained). rewrite Hfa in Hfr.
           rewrite <- app_assoc in Hfr. cbn [published map].
           auto using sublist_skip.
      * rewrite Hatt in Hfr. exists a', gained. cbn [published map].
        auto using sublist_cons.
    + destruct (IH _ _ (step_lookup_state j rs s i a Hi))
        as (a' & gained & Ha' & Hfr & Hsub).
      exists a', gained. cbn [published].
      destruct (Nat.eqb j i); auto.
Qed.

Lemma run_frames_while_open
    (evs : list HubEvent) (s : WebSocketServer) (i : nat) (a : WebSocket) :
  clients s !! i = Some a ->
  (forall calls data, sendFails a calls data = None) ->
  exists a',
    clients (run DEBUG stringify evs s) !! i = Some a'
    /\ sendFails a' = sendFails a
    /\ frames a'
       = frames a ++ map stringify (publishedWhileOpen i (readyState a) evs).
Proof.
  revert s a. induction evs as [|ev evs IH]; intros s a Hi Hsend.
  - exists a. cbn. rewrite app_nil_r. auto.
  - rewrite run_cons. destruct ev as [msg | j rs].
    + destruct (attempt_spec (stringify msg) a) as (Hrs & Hsf & Hatt).
      destruct (IH _ _ (step_lookup_publish msg s i a Hi))
        as (a' & Ha' & Hsf' & Hfr).
      { intros calls data. rewrite Hsf. apply Hsend. }
      exists a'. split; [exact Ha'|]. split; [congruence|].
      rewrite Hfr, Hrs. cbn [publishedWhileOpen].
      destruct (Z.eqb (readyState a) OPEN).
      * destruct Hatt as [_ ->]. rewrite Hsend. cbn [map].
        rewrite <- app_assoc. reflexivity.
      * rewrite Hatt. reflexivity.
    + destruct (IH _ _ (step_lookup_state j rs s i a Hi))
        as (a' & Ha' & Hsf' & Hfr).
      { intros calls data. destruct (Nat.eqb j i); apply Hsend. }
      exists a'. split; [exact Ha'|].
      split; [rewrite Hsf'; destruct (Nat.eqb j i); reflexivity|].
      rewrite Hfr. cbn [publishedWhileOpen].
      destruct (Nat.eqb j i); reflexivity.
Qed.

(** X2.  A connection on which no [send] throws gains exactly the frames
    published while it is OPEN, in order: nothing is kept for it while it
    is in another state, and nothing is sent again later. *)
Theorem frames_gained_are_those_published_while_open
    (evs : list HubEvent) (s : WebSocketServer) (i : nat) (a : WebSocket) :
  clients s !! i = Some a ->
  (forall calls data, sendFails a calls data = None) ->
  exists a',
    clients (run DEBUG stringify evs s) !! i = Some a'
    /\ frames a'
       = frames a ++ map stringify (publishedWhileOpen i (readyState a) evs).
Proof.
  intros Hi Hsend.
  destruct (run_frames_while_open evs s i a Hi Hsend) as (a' & Ha' & _ & Hfr).
  exists a'. split; [exact Ha' | exact Hfr].
Qed.

(** X3.  Over a run the Hub serializes once per published event, however
    many connections there are, and the number of connections does not
    change. *)
Theorem run_serializes_once_per_publish (evs : list HubEvent) (s : WebSocketServer) :
  stringifyCalls (run DEBUG stringify evs s)
  = (stringifyCalls s + length (published evs))%nat
  /\ length (clients (run DEBUG stringify evs s)) = length (clients s).
Proof.
  revert s. induction evs as [|ev evs IH]; intros s.
  - cbn. split; [lia | reflexivity].
  - rewrite run_cons. destruct (IH (step DEBUG stringify s ev)) as [Hn Hlen].
    rewrite Hn, Hlen. destruct ev as [msg | j rs].
    + cbn [published length step]. rewrite broadcast_clients, length_fmap.
      split; [|reflexivity].
      unfold broadcast.
      destruct (forEachClient DEBUG (stringify msg) (clients s) (console s)).
      cbn. lia.
    + cbn [published step clients stringifyCalls]. rewrite length_alter.
      split; [lia | reflexivity].
Qed.

End HubRunProperties.

(** X4.  With [DEBUG] off the Hub writes nothing to the console, whatever
    is published and whichever sends fail. *)
Theorem run_is_silent_without_DEBUG
    (stringify : Frame -> string) (evs : list Hub.HubEvent) (s : Hub.WebSocketServer) :
  Hub.console (Hub.run false stringify evs s) = Hub.console s.
Proof.
  revert s. induction evs as [|ev evs IH]; intros s; [reflexivity|].
  rewrite run_cons, IH. destruct ev as [msg | j rs]; [|reflexivity].
  cbn [Hub.step]. rewrite broadcast_console. apply app_nil_r.
Qed.

(** X1 on a viewer whose [send] throws, over two publishes. *)
Lemma frames_gained_are_sublist_of_published_witness :
  let s := Hub.mkWss [failingViewer; healthyViewer] [] 0 in
  let evs := [Hub.Publish ackFrame; Hub.Publish ackFrame] in
  exists a' gained,
    Hub.clients (Hub.run true exampleStringify evs s) !! 0%nat = Some a'
    /\ Hub.frames a' = Hub.frames failingViewer ++ gained
    /\ sublist gained (map exampleStringify (Hub.published evs)).
Proof.
  intros s evs.
  apply (frames_gained_are_sublist_of_published true exampleStringify evs s 0
           failingViewer).
  reflexivity.
Defined.

(** X2 on a viewer that is closed after the first of three publishes and
    opened again before the third. *)
Lemma frames_gained_are_those_published_while_open_witness :
  let s := Hub.mkWss [failingViewer; healthyViewer] [] 0 in
  let evs := [Hub.Publish ackFrame; Hub.SetReadyState 1 Hub.CLOSED;
              Hub.Publish ackFrame; Hub.SetReadyState 1 Hub.OPEN;
              Hub.Publish ackFrame] in
  exists a',
    Hub.clients (Hub.run false exampleStringify evs s) !! 1%nat = Some a'
    /\ Hub.frames a'
       = Hub.frames healthyViewer
         ++ map exampleStringify
              (publishedWhileOpen 1 (Hub.readyState healthyViewer) evs).
Proof.
  intros s evs.
  apply (frames_gained_are_those_published_while_open false exampleStringify evs s 1
           healthyViewer); reflexivity.
Defined.

(** ** A viewer that connects *)

Section ConnectionProperties.

Import Hub.

Variable DEBUG : bool.
Variable stringify : Frame -> string.

(** X5.  A viewer that connects, and on which no [send] throws, is added
    after the connections there are, which keep what they have; its first
    frame is the acknowledgment, and after it come the frames published
    from then on while it is OPEN: nothing published before it connected
    is sent to it. *)
Theorem late_joiner_gets_ack_then_live_frames
    (ws : WebSocket) (s : WebSocketServer) (evs : list HubEvent) :
  (forall calls data, sendFails ws calls data = None) ->
  exists s1 a',
    Wss.onConnection DEBUG stringify ws s = (s1, Normal tt)
    /\ take (length (clients s)) (clients s1) = clients s
    /\ length (clients s1) = S (length (clients s))
    /\ clients (run DEBUG stringify evs s1) !! length (clients s) = Some a'
    /\ frames a'
       = frames ws
         ++ stringify Wss.connectionAck
            :: map stringify
                 (publishedWhileOpen (length (clients s)) (readyState ws) evs).
Proof.
  intros Hsend. unfold Wss.onConnection, send. rewrite Hsend.
  set (ws1 := mkWebSocket (readyState ws) (sendFails ws)
                (sendCalls ws ++ [stringify Wss.connectionAck])
                (frames ws ++ [stringify Wss.connectionAck])).
  set (s1 := mkWss (clients s ++ [ws1]) _ _).
  destruct (run_frames_while_open DEBUG stringify evs s1
              (length (clients s)) ws1) as (a' & Ha' & _ & Hfr).
  - subst s1. cbn [clients]. apply list_lookup_middle. reflexivity.
  - exact Hsend.
  - exists s1, a'. split; [reflexivity|]. subst s1. cbn [clients].
    split; [apply take_app_length|].
    split; [rewrite length_app; cbn; lia|].
    split; [exact Ha'|].
    rewrite Hfr. subst ws1. cbn [frames readyState].
    rewrite <- app_assoc. reflexivity.
Qed.

End ConnectionProperties.

(** X5 on a viewer that joins one earlier viewer. *)
Lemma late_joiner_gets_ack_then_live_frames_witness :
  let s := Hub.mkWss [healthyViewer] [] 0 in
  let evs := [Hub.Publish ackFrame] in
  exists s1 a',
    Wss.onConnection true exampleStringify healthyViewer s = (s1, Normal tt)
    /\ take (length (Hub.clients s)) (Hub.clients s1) = Hub.clients s
    /\ length (Hub.clients s1) = S (length (Hub.clients s))
    /\ Hub.clients (Hub.run true exampleStringify evs s1) !! length (Hub.clients s)
       = Some a'
    /\ Hub.frames a'
       = Hub.frames healthyViewer
         ++ exampleStringify Wss.connectionAck
            :: map exampleStringify
                 (publishedWhileOpen (length (Hub.clients s))
                    (Hub.readyState healthyViewer) evs).
Proof.
  intros s evs.
  apply (late_joiner_gets_ack_then_live_frames true exampleStringify
           healthyViewer s evs).
  reflexivity.
Defined.

(** ** From a Twitch event to the viewers *)

Section EndToEndProperties.

Variable env : gmap string string.
Variable uuidv4 : nat -> string.
Variable stringify : Frame -> string.
Variable debug : bool.

(** A session depends on the runtime it starts from only through the
    number of ids handed out: every call reads the clock anew. *)
Lemma session_draws (calls : list (Z * Platform * AdapterEvent))
    (rt rt' : Normalizer.Runtime) :
  Normalizer.draws rt = Normalizer.draws rt' ->
  Normalizer.session uuidv4 calls rt = Normalizer.session uuidv4 calls rt'.
Proof.
  intros Hd. destruct calls as [|[[t p] evt] calls]; [reflexivity|].
  cbn. rewrite Hd. reflexivity.
Qed.

(** The messages of a session bear the times of their calls. *)
Lemma session_ts (calls : list (Z * Platform * AdapterEvent)) :
  forall rt,
    map ts (Normalizer.session uuidv4 calls rt)
    = map (fun call => fst (fst call)) calls.
Proof.
  induction calls as [|[[t p] evt] calls IH]; intros rt; [reflexivity|].
  cbn. f_equal. apply IH.
Qed.

(** One call of the listener with the server's callback: a delivered
    event is normalized and broadcast, any other leaves the state. *)
Lemma listener_server_app (m : Twitch.RawMessage)
    (st : Twitch.Process (Normalizer.Runtime * Hub.WebSocketServer)) :
  exists st',
    Twitch.onMessageListener _ debug (Server.onMessage env uuidv4 stringify twitch) m st
    = (st', Normal tt)
    /\ Twitch.app st'
       = match Twitch.delivered m with
         | Some evt =>
             (snd (Normalizer.normalize uuidv4 twitch evt (fst (Twitch.app st))),
              Hub.broadcast (Server.DEBUG env) stringify
                (ChatFrame (fst (Normalizer.normalize uuidv4 twitch evt
                                   (fst (Twitch.app st)))))
                (snd (Twitch.app st)))
         | None => Twitch.app st
         end.
Proof.
  unfold Twitch.onMessageListener, Twitch.delivered.
  destruct (Twitch.msg_self m); [exists st; auto|].
  unfold try_catch, Twitch.readTags. destruct (Twitch.msg_tags m) as [t|].
  - unfold mbind, M_bind, mret, M_ret, Twitch.callOnMessage, Server.onMessage.
    cbn. eexists. split; reflexivity.
  - unfold mbind, M_bind, throw. destruct debug; eexists; split; reflexivity.
Qed.

Lemma omap_normalizeCall_cons (t : Z) (m : Twitch.RawMessage)
    (ms : list (Z * Twitch.RawMessage)) :
  omap Arrival.normalizeCall ((t, m) :: ms)
  = match Twitch.delivered m with
    | Some evt => (t, twitch, evt) :: omap Arrival.normalizeCall ms
    | None => omap Arrival.normalizeCall ms
    end.
Proof.
  change (omap Arrival.normalizeCall ((t, m) :: ms))
    with (match Arrival.normalizeCall (t, m) with
          | Some y => y :: omap Arrival.normalizeCall ms
          | None => omap Arrival.normalizeCall ms
          end).
  unfold Arrival.normalizeCall at 1. cbn [fst snd].
  destruct (Twitch.delivered m); reflexivity.
Qed.

Lemma emitAllAt_server_run (ms : list (Z * Twitch.RawMessage)) :
  forall st : Twitch.Process (Normalizer.Runtime * Hub.WebSocketServer),
    exists st',
      Arrival.emitAllAt debug (Server.onMessage env uuidv4 stringify twitch) ms st
      = (st', Normal tt)
      /\ Normalizer.draws (fst (Twitch.app st'))
         = (Normalizer.draws (fst (Twitch.app st))
            + length (omap Arrival.normalizeCall ms))%nat
      /\ snd (Twitch.app st')
         = Hub.run (Server.DEBUG env) stringify
             (map (fun msg => Hub.Publish (ChatFrame msg))
                (Normalizer.session uuidv4 (omap Arrival.normalizeCall ms)
                   (fst (Twitch.app st))))
             (snd (Twitch.app st)).
Proof.
  induction ms as [|[t m] ms IH]; intros st.
  - exists st. cbn. rewrite Nat.add_0_r. auto.
  - cbn [Arrival.emitAllAt]. unfold mbind, M_bind at 1. unfold Arrival.atTime at 1.
    set (st0 := Twitch.mkProcess _ _ _).
    destruct (listener_server_app m st0) as (st1 & Hm & Happ).
    destruct (IH st1) as (st' & Hrest & Hdraws & Hhub).
    exists st'. split.
    { unfold mbind, M_bind. rewrite Hm. exact Hrest. }
    rewrite Hdraws, Hhub, Happ, omap_normalizeCall_cons.
    destruct (Twitch.delivered m) as [evt|]; subst st0.
    + cbn [Twitch.app fst snd Normalizer.draws Normalizer.normalize length].
      split; [lia | reflexivity].
    + cbn [Twitch.app fst snd Normalizer.draws].
      split; [lia|]. f_equal. f_equal. apply session_draws. reflexivity.
Qed.

(** X6.  The Twitch listener, called with the server's callback for raw
    events that arrive at any times, never throws and does to the Hub what
    publishing, in order, the message [normalize] makes of every delivered
    event at its time of arrival does; self echoes and events without tags
    publish nothing and draw no id. *)
Theorem twitch_listener_publishes_delivered_events
    (ms : list (Z * Twitch.RawMessage))
    (st : Twitch.Process (Normalizer.Runtime * Hub.WebSocketServer)) :
  exists st',
    Arrival.emitAllAt debug (Server.onMessage env uuidv4 stringify twitch) ms st
    = (st', Normal tt)
    /\ snd (Twitch.app st')
       = Hub.run (Server.DEBUG env) stringify
           (map (fun msg => Hub.Publish (ChatFrame msg))
              (Normalizer.session uuidv4 (omap Arrival.normalizeCall ms)
                 (fst (Twitch.app st))))
           (snd (Twitch.app st))
    /\ map ts (Normalizer.session uuidv4 (omap Arrival.normalizeCall ms)
                 (fst (Twitch.app st)))
       = map (fun call => fst (fst call)) (omap Arrival.normalizeCall ms).
Proof.
  destruct (emitAllAt_server_run ms st) as (st' & Hrun & _ & Hhub).
  exists st'. split; [exact Hrun|]. split; [exact Hhub|].
  apply session_ts.
Qed.

Lemma publishedWhileOpen_publishes (i : nat) (fs : list Frame) :
  publishedWhileOpen i Hub.OPEN (map Hub.Publish fs) = fs.
Proof.
  induction fs as [|f fs IH]; [reflexivity|].
  cbn. now rewrite IH.
Qed.

(** X7.  A viewer that is OPEN and on which no [send] throws receives one
    chat frame for every delivered Twitch event, in the order of the
    events, each stamped with the time its event arrived, and nothing
    else. *)
Theorem open_viewer_receives_every_twitch_message
    (ms : list (Z * Twitch.RawMessage))
    (st : Twitch.Process (Normalizer.Runtime * Hub.WebSocketServer))
    (i : nat) (a : Hub.WebSocket) :
  Hub.clients (snd (Twitch.app st)) !! i = Some a ->
  Hub.readyState a = Hub.OPEN ->
  (forall calls data, Hub.sendFails a calls data = None) ->
  exists st' a',
    Arrival.emitAllAt debug (Server.onMessage env uuidv4 stringify twitch) ms st
    = (st', Normal tt)
    /\ Hub.clients (snd (Twitch.app st')) !! i = Some a'
    /\ Hub.frames a'
       = Hub.frames a
         ++ map (fun msg => stringify (ChatFrame msg))
              (Normalizer.session uuidv4 (omap Arrival.normalizeCall ms)
                 (fst (Twitch.app st))).
Proof.
  intros Hi Hopen Hsend.
  destruct (emitAllAt_server_run ms st) as (st' & Hrun & _ & Hhub).
  destruct (run_frames_while_open (Server.DEBUG env) stringify
              (map (fun msg => Hub.Publish (ChatFrame msg))
                 (Normalizer.session uuidv4 (omap Arrival.normalizeCall ms)
                    (fst (Twitch.app st))))
              (snd (Twitch.app st)) i a Hi Hsend) as (a' & Ha' & _ & Hfr).
  exists st', a'. split; [exact Hrun|]. rewrite Hhub. split; [exact Ha'|].
  rewrite Hfr, Hopen.
  rewrite <- (map_map ChatFrame Hub.Publish), publishedWhileOpen_publishes.
  rewrite map_map. reflexivity.
Qed.

End EndToEndProperties.

(** X7 on two good messages around one without tags and one echo, as the
    clock advances. *)
Lemma open_viewer_receives_every_twitch_message_witness :
  let ms := [(1000, subscriberMessage); (1004, malformedMessage);
             (1010, echoMessage); (1017, subscriberMessage)] in
  let st := Twitch.mkProcess
              (Normalizer.mkRuntime 0 0, Hub.mkWss [failingViewer; healthyViewer] [] 0)
              [] [] in
  exists st' a',
    Arrival.emitAllAt true (Server.onMessage exampleEnv exampleUuid exampleStringify twitch)
      ms st
    = (st', Normal tt)
    /\ Hub.clients (snd (Twitch.app st')) !! 1%nat = Some a'
    /\ Hub.frames a'
       = Hub.frames healthyViewer
         ++ map (fun msg => exampleStringify (ChatFrame msg))
              (Normalizer.session exampleUuid (omap Arrival.normalizeCall ms)
                 (fst (Twitch.app st))).
Proof.
  intros ms st.
  apply (open_viewer_receives_every_twitch_message exampleEnv exampleUuid
           exampleStringify true ms st 1 healthyViewer); reflexivity.
Defined.

Example timestamps_follow_the_clock :
  let ms := [(1000, subscriberMessage); (1004, malformedMessage);
             (1010, echoMessage); (1017, subscriberMessage)] in
  map (fun m => (id m, ts m))
    (Normalizer.session exampleUuid (omap Arrival.normalizeCall ms)
       (Normalizer.mkRuntime 0 0))
  = [(exampleUuid 0, 1000); (exampleUuid 1, 1017)].
Proof. vm_compute. reflexivity. Qed.

(** ** Starting and stopping the Twitch adapter *)

Section TwitchStartProperties.

Import Twitch.

Variable connect : list string -> Console * option JsError.

Lemma onLast_snoc (f : TmiClient -> TmiClient) (cs : list TmiClient) (c : TmiClient) :
  onLast f (cs ++ [c]) = cs ++ [f c].
Proof.
  unfold onLast. rewrite length_app. cbn [length].
  replace (Nat.pred (length cs + 1)) with (length cs) by lia.
  induction cs as [|x cs IH]; [reflexivity|].
  cbn. f_equal. exact IH.
Qed.

(** What [startTwitch] does on a configuration with a channel. *)
Lemma startTwitch_closed_form (cfg : TwitchAdapterConfig) (c : string) (w : World) :
  cfg_channel cfg = Some c ->
  let joined := if startsWith "#" c then slice1 c else c in
  let debug := default false (cfg_debug cfg) in
  let client connected :=
    mkTmiClient debug [joined] ["message"; "connected"; "disconnected"] connected in
  startTwitch connect cfg w
  = match snd (connect [joined]) with
    | Some e =>
        (mkWorld (tmiClients w ++ [client false])
           (console w ++ fst (connect [joined])),
         Throw e)
    | None =>
        (mkWorld (tmiClients w ++ [client true])
           ((console w ++ fst (connect [joined]))
            ++ (if debug
                then [(LevelLog, "[twitch] connected to channel: #" +:+ joined)]
                else [])),
         Normal StopTwitch)
    end.
Proof.
  intros Hc. cbv zeta. unfold startTwitch. rewrite Hc.
  unfold mbind, M_bind, mret, M_ret, newClient, on, clientConnect, log.
  cbn [tmiClients console].
  rewrite !onLast_snoc.
  destruct (snd (connect _)) as [e|]; [reflexivity|].
  cbn [tmiClients console]. rewrite ?onLast_snoc.
  destruct (default false (cfg_debug cfg)); cbn; rewrite ?app_nil_r; reflexivity.
Qed.

(** X8.  [startTwitch] takes one leading [#] off the channel and no more:
    the client made for [#c] joins [c], whatever [c] is, so [##c] joins
    [#c]; and a channel that has no [#] is joined as it is, so that the
    spellings [#c] and [c] start the same client on the same channel. *)
Theorem startTwitch_ignores_leading_hash
    (c : string) (channels : option (list string)) (username oauth : option string)
    (debug : option bool) (w : World) :
  (exists client,
      tmiClients
        (fst (startTwitch connect
                (mkConfig (Some ("#" +:+ c)) channels username oauth debug) w))
      = tmiClients w ++ [client]
      /\ tmi_channels client = [c])
  /\ (exists client,
        tmiClients
          (fst (startTwitch connect
                  (mkConfig (Some c) channels username oauth debug) w))
        = tmiClients w ++ [client]
        /\ tmi_channels client = [if startsWith "#" c then slice1 c else c])
  /\ (if startsWith "#" c then True
      else startTwitch connect
             (mkConfig (Some ("#" +:+ c)) channels username oauth debug) w
           = startTwitch connect
               (mkConfig (Some c) channels username oauth debug) w).
Proof.
  assert (Hhash : startsWith "#" ("#" +:+ c) = true)
    by (unfold startsWith; cbn; now destruct c).
  pose proof (startTwitch_closed_form
                (mkConfig (Some ("#" +:+ c)) channels username oauth debug)
                ("#" +:+ c) w eq_refl) as Hh.
  pose proof (startTwitch_closed_form
                (mkConfig (Some c) channels username oauth debug) c w eq_refl) as Hc.
  cbv zeta in Hh, Hc. rewrite Hhash in Hh.
  change (slice1 ("#" +:+ c)) with c in Hh. cbn [cfg_debug] in Hh, Hc.
  split; [|split].
  - rewrite Hh. destruct (snd (connect [c])); eexists; cbn; split; reflexivity.
  - rewrite Hc.
    destruct (snd (connect [if startsWith "#" c then slice1 c else c]));
      eexists; cbn; split; reflexivity.
  - destruct (startsWith "#" c) eqn:Hs; [exact I|].
    rewrite Hh, Hc. reflexivity.
Qed.


End TwitchStartProperties.

(** X8 on the channels [##somechannel] and [#somechannel]. *)
Example startTwitch_takes_one_hash_off :
  Twitch.tmi_channels
    <$> Twitch.tmiClients
          (fst (Twitch.startTwitch (fun _ => ([], None))
                  (Twitch.mkConfig (Some "##somechannel") None None None None)
                  (Twitch.mkWorld [] [])))
  = [["#somechannel"]]
  /\ Twitch.startTwitch (fun _ => ([], None))
       (Twitch.mkConfig (Some "#somechannel") None None None (Some true))
       (Twitch.mkWorld [] [])
     = Twitch.startTwitch (fun _ => ([], None))
         (Twitch.mkConfig (Some "somechannel") None None None (Some true))
         (Twitch.mkWorld [] []).
Proof. vm_compute. split; reflexivity. Qed.


Section TwitchStopProperties.

Import TwitchStop.

Variable debug : bool.
Variable disconnect : Twitch.TmiClient -> Console * option JsError.



End TwitchStopProperties.

Section TwitchQuietProperties.

Import Twitch.

Variable App : Type.
Variable onMessage : AdapterEvent -> App -> App * option JsError.

(** X11.  With [debug] off the listener writes nothing to the console,
    whatever the events are and whatever the callback throws. *)
Theorem listener_is_silent_without_debug (ms : list RawMessage) (st : Process App) :
  out (fst (emitAll App false onMessage ms st)) = out st.
Proof.
  revert st. induction ms as [|m ms IH]; intros st; [reflexivity|].
  cbn [emitAll]. unfold mbind, M_bind at 1.
  assert (Hm : exists st1,
             onMessageListener App false onMessage m st = (st1, Normal tt)
             /\ out st1 = out st).
  { unfold onMessageListener. destruct (msg_self m); [exists st; auto|].
    unfold try_catch, readTags. destruct (msg_tags m) as [t|].
    - unfold mbind, M_bind, mret, M_ret, callOnMessage.
      destruct (onMessage _ _) as [app' [e|]]; eexists; split; reflexivity.
    - unfold mbind, M_bind, throw. eexists; split; reflexivity. }
  destruct Hm as (st1 & -> & <-). apply IH.
Qed.

End TwitchQuietProperties.

(** ** Starting the adapters, and stopping them *)

Section StartStopProperties.

Import Server.

Variable env : gmap string string.
Variable connect : list string -> Console * option JsError.
Variable startTikTok : string -> bool -> completion StopFunction.
Variable startYouTube : string -> bool -> bool -> completion StopFunction.

Lemma initTikTok_effect (b : Boot) :
  exists b' skipped,
    initTikTok env startTikTok b = (b', Normal tt)
    /\ stopFns b'
       = stopFns b ++ stopsKept (configured env tiktok) (tiktokOutcome env startTikTok)
    /\ intervals b' = intervals b
    /\ grows b b'
         (failureLines "[tiktok]" (configured env tiktok)
            (tiktokOutcome env startTikTok) ++ skipped)
    /\ (configured env tiktok = true -> skipped = []).
Proof.
  unfold initTikTok, grows, tiktokOutcome, stopsKept, failureLines.
  rewrite configured_tiktok.
  destruct (truthy (env !! "TIKTOK_USERNAME")).
  - unfold try_catch, mbind, M_bind, entered, outcome.
    destruct (startTikTok _ _); eexists _, []; (split; [reflexivity|]); cbn;
      rewrite ?app_nil_r; auto.
  - destruct (DEBUG env);
      [eexists _, [(LevelLog, "[tiktok] skipped (missing env)")]
      | eexists _, []];
      (split; [reflexivity|]); cbn; rewrite ?app_nil_r;
      repeat split; discriminate.
Qed.

Lemma initYouTube_effect (b : Boot) :
  exists b' before after,
    initYouTube env startYouTube b = (b', Normal tt)
    /\ stopFns b'
       = stopFns b
         ++ stopsKept (configured env youtube) (youtubeOutcome env startYouTube)
    /\ intervals b' = intervals b
    /\ grows b b'
         (before
          ++ failureLines "[youtube]" (configured env youtube)
               (youtubeOutcome env startYouTube)
          ++ after).
Proof.
  unfold initYouTube, grows, youtubeOutcome, stopsKept, failureLines.
  rewrite configured_youtube.
  destruct (truthy (env !! "YT_CHANNEL_ID")).
  - unfold try_catch, mbind, M_bind, entered, outcome, consoleLog, liftWorld.
    cbn [world startCalls stopFns intervals].
    destruct (startYouTube _ _ _); eexists _, [_], []; (split; [reflexivity|]);
      cbn; unfold console_log, console_error;
      rewrite ?app_nil_r, <- ?app_assoc; repeat split; reflexivity.
  - eexists _, [_], []; (split; [reflexivity|]); cbn; unfold console_warn;
      rewrite ?app_nil_r; repeat split; reflexivity.
Qed.

Lemma initFakeMessages_effect (b : Boot) :
  initFakeMessages env b
  = (mkBoot (world b)
       (stopFns b ++ (if fakeMessages env then [ClearInterval] else []))
       (startCalls b)
       (intervals b + (if fakeMessages env then 1 else 0)),
     Normal tt).
Proof.
  unfold initFakeMessages, fakeMessages.
  destruct b as [w fns calls n].
  destruct (env !! "FAKE_MESSAGES") as [v|]; [destruct (String.eqb v "true")|];
    cbn; rewrite ?app_nil_r, ?Nat.add_0_r, ?Nat.add_1_r; reflexivity.
Qed.

Lemma initializeAdapters_effect (b : Boot) :
  exists b' before after,
    initializeAdapters env connect startTikTok startYouTube b = (b', Normal tt)
    /\ stopFns b'
       = stopFns b
         ++ stopsKept (configured env tiktok) (tiktokOutcome env startTikTok)
         ++ stopsKept (configured env youtube) (youtubeOutcome env startYouTube)
         ++ (if fakeMessages env then [ClearInterval] else [])
    /\ intervals b' = (intervals b + (if fakeMessages env then 1 else 0))%nat
    /\ grows b b'
         (before
          ++ failureLines "[tiktok]" (configured env tiktok)
               (tiktokOutcome env startTikTok)
          ++ after).
Proof.
  unfold initializeAdapters, mbind, M_bind.
  rewrite initTwitch_spec.
  set (twitchLines := if configured env twitch then _ else _).
  set (b1 := mkBoot _ _ _ _).
  destruct (initTikTok_effect b1) as (b2 & skipped & H2 & Hs2 & Hi2 & Hg2 & _).
  rewrite H2.
  destruct (initYouTube_effect b2) as (b3 & pre & post & H3 & Hs3 & Hi3 & Hg3).
  rewrite H3, initFakeMessages_effect.
  exists (mkBoot (world b3)
            (stopFns b3 ++ (if fakeMessages env then [ClearInterval] else []))
            (startCalls b3)
            (intervals b3 + (if fakeMessages env then 1 else 0))),
    twitchLines,
    (skipped ++ pre
     ++ failureLines "[youtube]" (configured env youtube)
          (youtubeOutcome env startYouTube) ++ post).
  split; [reflexivity|]. unfold grows in *.
  cbn [stopFns intervals world]. rewrite Hs3, Hs2, Hi3, Hi2, Hg3, Hg2.
  subst b1. cbn [stopFns intervals world Twitch.console].
  rewrite <- !app_assoc. auto.
Qed.

(** X12.  [initializeAdapters] never throws, and the stop functions it
    adds to [stopFns] are, in this order: the one [startTikTok] returned,
    the one [startYouTube] returned, and the one that clears the
    fake-message timer, each only when that part was started and its start
    returned.  A start that throws adds none and stops no later part;
    Twitch never adds one. *)
Theorem stop_functions_kept (b : Boot) :
  exists b',
    initializeAdapters env connect startTikTok startYouTube b = (b', Normal tt)
    /\ stopFns b'
       = stopFns b
         ++ stopsKept (configured env tiktok) (tiktokOutcome env startTikTok)
         ++ stopsKept (configured env youtube) (youtubeOutcome env startYouTube)
         ++ (if fakeMessages env then [ClearInterval] else [])
    /\ intervals b' = (intervals b + (if fakeMessages env then 1 else 0))%nat.
Proof.
  destruct (initializeAdapters_effect b) as (b' & _ & _ & Hrun & Hstops & Hint & _).
  exists b'. auto.
Qed.

(** X13.  When [startTikTok] throws, the failure is written to the
    console at error level, whatever [DEBUG] is, no stop function is kept
    for TikTok, and YouTube is started all the same when its key is
    set. *)
Theorem failed_start_is_logged_and_isolated (b : Boot) (e : JsError) :
  configured env tiktok = true ->
  tiktokOutcome env startTikTok = Throw e ->
  exists b',
    initializeAdapters env connect startTikTok startYouTube b = (b', Normal tt)
    /\ In (LevelError, "[tiktok] Failed to start: " +:+ errMessage e)
         (Twitch.console (world b'))
    /\ stopFns b'
       = stopFns b
         ++ stopsKept (configured env youtube) (youtubeOutcome env startYouTube)
         ++ (if fakeMessages env then [ClearInterval] else [])
    /\ startCalls b'
       = startCalls b ++ List.filter (configured env) [twitch; tiktok; youtube].
Proof.
  intros Hconf Hthrow.
  destruct (initializeAdapters_effect b)
    as (b' & before & after & Hrun & Hstops & _ & Hgrows).
  destruct (initializeAdapters_calls env connect startTikTok startYouTube b)
    as (b'' & Hrun' & Hcalls & _).
  rewrite Hrun in Hrun'. injection Hrun' as <-.
  exists b'. split; [exact Hrun|]. split; [|split].
  - unfold grows in Hgrows. rewrite Hgrows, Hconf, Hthrow. cbn [failureLines].
    rewrite !in_app_iff. right. right. left. left. reflexivity.
  - rewrite Hstops, Hconf, Hthrow. reflexivity.
  - exact Hcalls.
Qed.

End StartStopProperties.

(** X13 on an environment with every key, where [startTikTok] throws. *)
Lemma failed_start_is_logged_and_isolated_witness :
  let env := <["TIKTOK_USERNAME" := "streamer"]> exampleEnv in
  exists b',
    Server.initializeAdapters env (fun _ => ([], None))
      (fun _ _ => Throw brokenPipe) (fun _ _ _ => Normal StopYouTube) emptyBoot
    = (b', Normal tt)
    /\ In (LevelError, "[tiktok] Failed to start: " +:+ errMessage brokenPipe)
         (Twitch.console (Server.world b'))
    /\ Server.stopFns b'
       = Server.stopFns emptyBoot
         ++ stopsKept (configured env youtube)
              (youtubeOutcome env (fun _ _ _ => Normal StopYouTube))
         ++ (if fakeMessages env then [ClearInterval] else [])
    /\ Server.startCalls b'
       = Server.startCalls emptyBoot
         ++ List.filter (configured env) [twitch; tiktok; youtube].
Proof.
  intros env.
  apply (failed_start_is_logged_and_isolated env (fun _ => ([], None))
           (fun _ _ => Throw brokenPipe) (fun _ _ _ => Normal StopYouTube)
           emptyBoot brokenPipe).
  - vm_compute. reflexivity.
  - reflexivity.
Defined.

(** ** Shutdown *)

Section ShutdownProperties.

Import Shutdown.

Variable stopThrows : list StopFunction -> StopFunction -> option JsError.

Lemma stopAll_effect (fns : list StopFunction) :
  forall out called,
    stopAll stopThrows fns out called
    = (out ++ map shutdownErrorLine (stopErrors stopThrows fns called),
       called ++ fns).
Proof.
  induction fns as [|stop fns IH]; intros out called.
  - cbn. now rewrite !app_nil_r.
  - cbn [stopAll stopErrors].
    destruct (stopThrows called stop) as [e|]; rewrite IH.
    + unfold console_error. cbn [map].
      rewrite <- !app_assoc. reflexivity.
    + rewrite <- app_assoc. reflexivity.
Qed.

(** X14.  On [SIGINT] every function of [stopFns] is called, once and in
    the order of the array, also after one of them has thrown; each throw
    leaves one error line on the console, after the line that announces
    the shutdown; and the process exits with code 0 whatever happened. *)
Theorem shutdown_calls_every_stop_function (b : Server.Boot) :
  ex_stopped (onSIGINT stopThrows b) = Server.stopFns b
  /\ ex_code (onSIGINT stopThrows b) = 0
  /\ ex_console (onSIGINT stopThrows b)
     = Twitch.console (Server.world b)
       ++ (LevelLog, shuttingDown)
          :: map shutdownErrorLine (stopErrors stopThrows (Server.stopFns b) []).
Proof.
  unfold onSIGINT. rewrite stopAll_effect. cbn.
  unfold console_log. rewrite <- app_assoc. auto.
Qed.

Variable env : gmap string string.
Variable connect : list string -> Console * option JsError.
Variable startTikTok : string -> bool -> completion StopFunction.
Variable startYouTube : string -> bool -> bool -> completion StopFunction.

(** X15.  What is stopped on [SIGINT] after the adapters were started:
    what was in [stopFns] before, then the adapters whose start returned,
    each once, then the fake-message timer; an adapter that was skipped or
    whose start threw is not stopped. *)
Theorem shutdown_stops_what_was_started (b : Server.Boot) :
  exists b',
    Server.initializeAdapters env connect startTikTok startYouTube b
    = (b', Normal tt)
    /\ ex_stopped (onSIGINT stopThrows b')
       = Server.stopFns b
         ++ stopsKept (configured env tiktok) (tiktokOutcome env startTikTok)
         ++ stopsKept (configured env youtube) (youtubeOutcome env startYouTube)
         ++ (if fakeMessages env then [ClearInterval] else [])
    /\ ex_code (onSIGINT stopThrows b') = 0.
Proof.
  destruct (initializeAdapters_effect env connect startTikTok startYouTube b)
    as (b' & _ & _ & Hrun & Hstops & _ & _).
  exists b'. split; [exact Hrun|].
  unfold onSIGINT. rewrite stopAll_effect. cbn. rewrite Hstops. auto.
Qed.

End ShutdownProperties.

(** ** The message list of the client *)

Section AppProperties.

Import App.

Lemma toLowerCase_app (a b : string) :
  toLowerCase (a +:+ b) = toLowerCase a +:+ toLowerCase b.
Proof.
  induction a as [|c a IH]; [reflexivity|].
  change (String (lowerChar c) (toLowerCase (a +:+ b))
          = String (lowerChar c) (toLowerCase a +:+ toLowerCase b)).
  now rewrite IH.
Qed.

Lemma toLowerCase_empty (s : string) : toLowerCase s = "" <-> s = "".
Proof. destruct s; cbn; split; intros H; (reflexivity || discriminate). Qed.

Lemma prefix_app_l (a b s : string) :
  String.prefix (a +:+ b) s = true -> String.prefix a s = true.
Proof.
  revert s. induction a as [|c a IH]; intros s H.
  - destruct s; reflexivity.
  - destruct s as [|d s]; simpl in H |- *; [discriminate|].
    destruct (Ascii.ascii_dec c d); [exact (IH s H) | discriminate].
Qed.

Lemma includes_app_l (a b hay : string) :
  includes (a +:+ b) hay = true -> includes a hay = true.
Proof.
  induction hay as [|d hay IH]; cbn [includes]; intros H;
    apply orb_true_iff in H as [H | H]; apply orb_true_iff.
  - left. exact (prefix_app_l a b _ H).
  - discriminate.
  - left. exact (prefix_app_l a b _ H).
  - right. apply IH, H.
Qed.

Lemma filter_filter_implied {A} (P Q : A -> bool) (l : list A) :
  (forall x, P x = true -> Q x = true) ->
  List.filter P (List.filter Q l) = List.filter P l.
Proof.
  intros HPQ. induction l as [|x l IH]; [reflexivity|].
  cbn. destruct (Q x) eqn:HQ; cbn.
  - destruct (P x); now rewrite IH.
  - destruct (P x) eqn:HP; [|exact IH].
    apply HPQ in HP. congruence.
Qed.

(** X16.  A message of a platform whose filter is off is never in the
    list shown, whatever is searched for. *)
Theorem disabled_platform_is_never_shown
    (filters : PlatformFilters) (searchQuery : string) (messages : list ChatMessage)
    (p : Platform) :
  enabled filters p = false ->
  Forall (fun m => platform m <> p) (filteredMessages filters searchQuery messages).
Proof.
  intros Hoff. apply Forall_forall. intros m Hm.
  apply list_elem_of_In, filter_In in Hm as [_ Hshown].
  intros <-. unfold shown in Hshown. rewrite Hoff in Hshown. discriminate.
Qed.

(** X17.  With the filters as they start and nothing searched for, every
    message is shown, in the order received. *)
Theorem initial_view_shows_everything (messages : list ChatMessage) :
  filteredMessages initialFilters "" messages = messages.
Proof.
  unfold filteredMessages. induction messages as [|m ms IH]; [reflexivity|].
  cbn [List.filter]. replace (shown initialFilters "" m) with true.
  - now rewrite IH.
  - unfold shown. destruct (platform m); reflexivity.
Qed.

(** X18.  [handleFilterChange] sets the filter of one platform and leaves
    the two others; setting it again overrides the earlier setting. *)
Theorem handleFilterChange_sets_one_filter
    (prev : PlatformFilters) (p q : Platform) (on on' : bool) :
  p <> q ->
  enabled (handleFilterChange prev p on) p = on
  /\ enabled (handleFilterChange prev p on) q = enabled prev q
  /\ handleFilterChange (handleFilterChange prev p on) p on'
     = handleFilterChange prev p on'.
Proof.
  intros Hne. split; [|split].
  - destruct p; reflexivity.
  - destruct p, q; try reflexivity; contradiction.
  - destruct p; reflexivity.
Qed.

(** X19.  Switching a platform off takes its messages out of the list
    shown and nothing else: the new list is the old one without the
    messages of that platform. *)
Theorem switching_off_removes_only_that_platform
    (filters : PlatformFilters) (searchQuery : string) (messages : list ChatMessage)
    (p : Platform) :
  filteredMessages (handleFilterChange filters p false) searchQuery messages
  = filteredMessages (handleFilterChange initialFilters p false) ""
      (filteredMessages filters searchQuery messages).
Proof.
  unfold filteredMessages.
  induction messages as [|m ms IH]; [reflexivity|].
  cbn [List.filter].
  assert (Hm : shown (handleFilterChange filters p false) searchQuery m
               = (shown filters searchQuery m
                  && shown (handleFilterChange initialFilters p false) "" m)%bool).
  { unfold shown. destruct p, (platform m); cbn;
      destruct (f_twitch filters), (f_youtube filters), (f_tiktok filters); cbn;
      rewrite ?andb_true_r, ?andb_false_r; reflexivity. }
  rewrite Hm. destruct (shown filters searchQuery m); cbn [andb List.filter].
  - destruct (shown (handleFilterChange initialFilters p false) "" m);
      now rewrite IH.
  - exact IH.
Qed.

(** X20.  The search does not tell upper case from lower case in the
    query: two queries with the same lower-case form show the same
    messages. *)
Theorem search_ignores_case_of_query
    (filters : PlatformFilters) (q q' : string) (messages : list ChatMessage) :
  toLowerCase q = toLowerCase q' ->
  filteredMessages filters q messages = filteredMessages filters q' messages.
Proof.
  intros Hq. unfold filteredMessages. apply filter_ext. intros m.
  unfold shown. rewrite Hq.
  assert (He : String.eqb q "" = String.eqb q' "").
  { destruct (String.eqb_spec q ""), (String.eqb_spec q' ""); try reflexivity.
    - subst q. symmetry in Hq.
      apply (proj1 (toLowerCase_empty q')) in Hq. contradiction.
    - subst q'. apply (proj1 (toLowerCase_empty q)) in Hq. contradiction. }
  rewrite He. reflexivity.
Qed.

(** X21.  Typing more never brings a message back: every message shown
    for a query is shown for each of its beginnings, so searching the
    longer query in what the shorter one shows gives what it gives on all
    messages. *)
Theorem longer_query_narrows
    (filters : PlatformFilters) (q r : string) (messages : list ChatMessage) :
  filteredMessages filters (q +:+ r) (filteredMessages filters q messages)
  = filteredMessages filters (q +:+ r) messages.
Proof.
  unfold filteredMessages. apply filter_filter_implied. intros m.
  unfold shown. destruct (enabled filters (platform m)); cbn [negb]; [|auto].
  destruct (String.eqb_spec q "") as [-> | Hq]; [reflexivity|].
  cbn [negb].
  destruct (String.eqb_spec (q +:+ r) "") as [Hqr | _].
  { destruct q; [contradiction | discriminate]. }
  cbn [negb]. rewrite toLowerCase_app. intros H.
  apply orb_true_iff in H as [H | H]; apply orb_true_iff;
    [left | right]; exact (includes_app_l _ _ _ H).
Qed.

End AppProperties.

(** ** The badges of a message *)

Section BadgeRenderProperties.

Import Badge.

Variable getSubscriptionBadgeUrl : Z -> option string.
Variable getCheerBadgeUrl : Z -> option string.
Variable getBadgeUrl : string -> option string.
Variable getBadgeInfo : string -> option string.

Lemma subscriber_is_not_cheer (m : ChatMessage) (badge : string) :
  Client.isTwitchSubscriber m badge = true -> isTwitchCheer m badge = false.
Proof.
  unfold Client.isTwitchSubscriber, isTwitchCheer.
  destruct (platform m); try discriminate.
  intros H. apply String.eqb_eq in H. rewrite H. reflexivity.
Qed.

Lemma cheer_is_not_subscriber (m : ChatMessage) (badge : string) :
  isTwitchCheer m badge = true -> Client.isTwitchSubscriber m badge = false.
Proof.
  intros Hcheer.
  destruct (Client.isTwitchSubscriber m badge) eqn:Hsub; [|reflexivity].
  apply subscriber_is_not_cheer in Hsub. congruence.
Qed.

(** X22.  In public mode a badge is an image or nothing, never its plain
    label; in private mode it is an image or its label, never nothing; the
    label is the badge identifier as received. *)
Theorem label_only_in_private_mode (m : ChatMessage) (isPublicMode : bool)
    (badge : string) :
  match renderBadge getSubscriptionBadgeUrl getCheerBadgeUrl getBadgeUrl getBadgeInfo
          m isPublicMode badge with
  | Img _ _ => True
  | Label text => isPublicMode = false /\ text = badge
  | Null => isPublicMode = true
  end.
Proof.
  unfold renderBadge, cheerOrLater, globalOrLabel, labelOrNull.
  destruct (Client.isTwitchSubscriber m badge), (isTwitchCheer m badge),
    (isTwitch m), (truthy (getSubscriptionBadgeUrl (Client.months m))),
    (truthy (getCheerBadgeUrl (bits m))),
    (truthy (getBadgeUrl (toLowerCase badge))), isPublicMode; cbn; auto.
Qed.

(** X23.  A badge of a message that is not from Twitch never gets an
    image, whatever the catalogs hold: it is its label in private mode and
    nothing in public mode. *)
Theorem other_platforms_get_no_badge_image (m : ChatMessage) (isPublicMode : bool)
    (badge : string) :
  platform m <> twitch ->
  renderBadge getSubscriptionBadgeUrl getCheerBadgeUrl getBadgeUrl getBadgeInfo
          m isPublicMode badge
  = if isPublicMode then Null else Label badge.
Proof.
  intros Hp. unfold renderBadge, cheerOrLater, globalOrLabel, labelOrNull,
    Client.isTwitchSubscriber, isTwitchCheer, isTwitch.
  destruct (platform m); [contradiction | |]; destruct isPublicMode; reflexivity.
Qed.

(** X24.  A subscriber badge of a Twitch message is decided by the
    subscription catalog alone: the image of the month count when there is
    one, otherwise the label or nothing; the catalogs of cheer and global
    badges are not asked, even when they have an entry for it. *)
Theorem subscriber_badge_uses_subscription_catalog_only
    (m : ChatMessage) (isPublicMode : bool) (badge : string) :
  Client.isTwitchSubscriber m badge = true ->
  renderBadge getSubscriptionBadgeUrl getCheerBadgeUrl getBadgeUrl getBadgeInfo
          m isPublicMode badge
  = match getSubscriptionBadgeUrl (Client.months m) with
    | Some url =>
        if String.eqb url "" then labelOrNull isPublicMode badge
        else Img url (SubscriberMonths (Client.months m))
    | None => labelOrNull isPublicMode badge
    end.
Proof.
  intros Hsub. unfold renderBadge, cheerOrLater, globalOrLabel.
  rewrite Hsub, (subscriber_is_not_cheer m badge Hsub).
  rewrite andb_false_r. cbn [andb negb].
  destruct (getSubscriptionBadgeUrl (Client.months m)) as [url|]; cbn;
    [destruct (String.eqb url "")|]; reflexivity.
Qed.

(** X25.  A cheer or bits badge of a Twitch message is decided by the
    cheer catalog alone, asked with the bit amount of the message or 1;
    without an image there it is the label or nothing, never a global
    badge. *)
Theorem cheer_badge_uses_cheer_catalog_only
    (m : ChatMessage) (isPublicMode : bool) (badge : string) :
  isTwitchCheer m badge = true ->
  renderBadge getSubscriptionBadgeUrl getCheerBadgeUrl getBadgeUrl getBadgeInfo
          m isPublicMode badge
  = match getCheerBadgeUrl (bits m) with
    | Some url =>
        if String.eqb url "" then labelOrNull isPublicMode badge
        else Img url (CheeredBits (bits m))
    | None => labelOrNull isPublicMode badge
    end.
Proof.
  intros Hcheer. unfold renderBadge, cheerOrLater, globalOrLabel.
  rewrite Hcheer, (cheer_is_not_subscriber m badge Hcheer).
  rewrite andb_false_r.
  destruct (getCheerBadgeUrl (bits m)) as [url|]; cbn;
    [destruct (String.eqb url "")|]; reflexivity.
Qed.

End BadgeRenderProperties.

(** ** From the adapter to the badges *)

Section AdapterToBadgeProperties.

Variable uuidv4 : nat -> string.

(** X26.  For the message [normalize] makes of a Twitch event, as it
    reaches the client, the client's three ways to find the subscription
    months agree: the count is what the [subscriber] entry of the tags'
    badges parses to, when there is one and it parses, and unknown
    otherwise.  The message carries no cheer amount, so cheer badges are
    looked up with 1 bit; its badges are the keys of the tags' badge
    object, in order. *)
Theorem client_reads_what_the_adapter_wrote
    (rt : Normalizer.Runtime) (channel : string) (t : Tags) (text : string) :
  let m := received (fst (Normalizer.normalize uuidv4 twitch
                            (Twitch.adapterEvent channel t text) rt)) in
  Client.getSubscriptionMonths m = Client.subscriberMonths (tag_badges t)
  /\ Badge.bits m = 1
  /\ badges m = keys (default [] (tag_badges t))
  /\ raw_tags (raw m) = Some t.
Proof.
  cbn. split; [|auto].
  unfold Client.getSubscriptionMonths, Client.subscriberMonths,
    Twitch.subscriptionMonthsOf, Client.truthyNum. cbn.
  destruct (tag_badges t) as [bs|]; [|reflexivity].
  destruct (prop "subscriber" bs) as [v|]; [|reflexivity].
  destruct (String.eqb v ""); [reflexivity|]. cbn.
  destruct (parseInt v) as [z|]; [|reflexivity].
  destruct (Z.eqb z 0); reflexivity.
Qed.

End AdapterToBadgeProperties.

(** ** The path of the private mode *)

Lemma stripTrailingSlashes_slash (p : string) :
  stripTrailingSlashes (p +:+ "/") = stripTrailingSlashes p.
Proof.
  induction p as [|c p IH]; [reflexivity|].
  change (stripTrailingSlashes (String c p +:+ "/"))
    with (match stripTrailingSlashes (p +:+ "/") with
          | EmptyString => if Ascii.eqb c "/" then EmptyString else String c EmptyString
          | rest' => String c rest'
          end).
  rewrite IH. reflexivity.
Qed.

Lemma string_app_assoc (a b c : string) : (a +:+ b) +:+ c = a +:+ (b +:+ c).
Proof.
  induction a as [|x a IH]; [reflexivity|].
  change (String x ((a +:+ b) +:+ c) = String x (a +:+ (b +:+ c))).
  now rewrite IH.
Qed.

Lemma string_app_nil_r (a : string) : a +:+ "" = a.
Proof.
  induction a as [|x a IH]; [reflexivity|].
  change (String x (a +:+ "") = String x a). now rewrite IH.
Qed.

Lemma stripTrailingSlashes_slashes (n : nat) :
  forall p, stripTrailingSlashes (p +:+ slashes n) = stripTrailingSlashes p.
Proof.
  induction n as [|n IH]; intros p.
  - cbn [slashes]. now rewrite string_app_nil_r.
  - change (slashes (S n)) with ("/" +:+ slashes n).
    rewrite <- string_app_assoc, IH. apply stripTrailingSlashes_slash.
Qed.

(** X27.  Slashes added at the end of the path do not change the mode:
    [/private], [/private/] and [/private//] select the same one, with any
    query string. *)
Theorem trailing_slashes_do_not_change_mode
    (query : list (string * string)) (path : string) (n : nat) :
  Client.isPublicMode (Client.mkLocation query (path +:+ slashes n))
  = Client.isPublicMode (Client.mkLocation query path).
Proof.
  unfold Client.isPublicMode, Client.isPrivatePath, Client.isPrivateParam.
  cbn [Client.pathname Client.search].
  rewrite stripTrailingSlashes_slashes. reflexivity.
Qed.

(** ** The further properties on examples *)

(** X16 with TikTok switched off. *)
Lemma disabled_platform_is_never_shown_witness :
  Forall (fun m => platform m <> tiktok)
    (App.filteredMessages (App.mkFilters true true false) "" exampleMessages).
Proof.
  apply (disabled_platform_is_never_shown (App.mkFilters true true false) ""
           exampleMessages tiktok).
  reflexivity.
Defined.

(** X18 on switching YouTube off and looking at Twitch. *)
Lemma handleFilterChange_sets_one_filter_witness :
  App.enabled (App.handleFilterChange App.initialFilters youtube false) youtube = false
  /\ App.enabled (App.handleFilterChange App.initialFilters youtube false) twitch
     = App.enabled App.initialFilters twitch
  /\ App.handleFilterChange (App.handleFilterChange App.initialFilters youtube false)
       youtube true
     = App.handleFilterChange App.initialFilters youtube true.
Proof.
  apply (handleFilterChange_sets_one_filter App.initialFilters youtube twitch
           false true).
  discriminate.
Defined.

(** X20 on [HELLO] and [hello]. *)
Lemma search_ignores_case_of_query_witness :
  App.filteredMessages App.initialFilters "HELLO" exampleMessages
  = App.filteredMessages App.initialFilters "hello" exampleMessages.
Proof.
  apply (search_ignores_case_of_query App.initialFilters "HELLO" "hello"
           exampleMessages).
  reflexivity.
Defined.

Example search_finds_both_hellos :
  map id (App.filteredMessages App.initialFilters "HeLLo" exampleMessages)
  = ["m1"; "m2"]
  /\ map id (App.filteredMessages App.initialFilters "hello t" exampleMessages)
     = ["m1"]
  /\ map id (App.filteredMessages (App.mkFilters false true true) "hello"
               exampleMessages)
     = ["m2"].
Proof. vm_compute. repeat split. Qed.

(** X23 on a member badge of a YouTube message, with catalogs that have
    an image for everything. *)
Lemma other_platforms_get_no_badge_image_witness :
  Badge.renderBadge (fun _ => Some "sub.png") (fun _ => Some "cheer.png")
    (fun _ => Some "global.png") (fun _ => Some "Member") memberChat true "member"
  = Badge.Null.
Proof.
  apply (other_platforms_get_no_badge_image (fun _ => Some "sub.png")
           (fun _ => Some "cheer.png") (fun _ => Some "global.png")
           (fun _ => Some "Member") memberChat true "member").
  discriminate.
Defined.

(** X24 on a subscriber of twelve months, with the catalog of the
    specification's example. *)
Lemma subscriber_badge_uses_subscription_catalog_only_witness :
  Badge.renderBadge (Client.getSubscriptionBadgeUrl exampleCatalog)
    (fun _ => Some "cheer.png") (fun _ => Some "global.png") (fun _ => None)
    subscriberChat true "Subscriber"
  = match Client.getSubscriptionBadgeUrl exampleCatalog (Client.months subscriberChat) with
    | Some url =>
        if String.eqb url "" then Badge.labelOrNull true "Subscriber"
        else Badge.Img url (Badge.SubscriberMonths (Client.months subscriberChat))
    | None => Badge.labelOrNull true "Subscriber"
    end.
Proof.
  apply (subscriber_badge_uses_subscription_catalog_only
           (Client.getSubscriptionBadgeUrl exampleCatalog)
           (fun _ => Some "cheer.png") (fun _ => Some "global.png") (fun _ => None)
           subscriberChat true "Subscriber").
  reflexivity.
Defined.

(** X25 on a bits badge without an image in the cheer catalog. *)
Lemma cheer_badge_uses_cheer_catalog_only_witness :
  Badge.renderBadge (fun _ => None) (fun _ => None) (fun _ => Some "global.png")
    (fun _ => None) subscriberChat false "bits"
  = match (fun _ : Z => @None string) (Badge.bits subscriberChat) with
    | Some url =>
        if String.eqb url "" then Badge.labelOrNull false "bits"
        else Badge.Img url (Badge.CheeredBits (Badge.bits subscriberChat))
    | None => Badge.labelOrNull false "bits"
    end.
Proof.
  apply (cheer_badge_uses_cheer_catalog_only (fun _ => None) (fun _ => None)
           (fun _ => Some "global.png") (fun _ => None) subscriberChat false "bits").
  reflexivity.
Defined.

Example badges_of_a_subscriber :
  Badge.renderBadges (Client.getSubscriptionBadgeUrl exampleCatalog)
    (fun _ => None) (fun _ => Some "global.png") (fun _ => None)
    subscriberChat true
  = Some [Badge.Img "sub-12.png" (Badge.SubscriberMonths 12); Badge.Null].
Proof. vm_compute. reflexivity. Qed.
